(** * USBAdapter: a shallow embedding of packages/usb/src/index.ts

    The adapter is an object with three mutable slots ([device],
    [endpoint], [deviceToPcEndpoint]) whose methods call into the host USB
    library, emit events, invoke caller-supplied callbacks and may throw.
    Methods are embedded as computations in a state-and-exception monad
    over [State]; everything observable from outside (events, callback
    invocations, host calls, console output) is appended, in program
    order, to one trace.

    What the host USB library does is data of the model: an interface
    records what its [isKernelDriverActive], [detachKernelDriver] and
    [claim] do, a device what its [open], [close] and [configDescriptor]
    do.  [setAltSetting] is taken to call back once per interface, in an
    order the host chooses; a bulk transfer reports its outcome through
    its callback only.  Callbacks and event listeners supplied by the
    caller are recorded, not run: they return normally and do not call
    back into the adapter. *)

From Stdlib Require Import ZArith String List Lia Permutation.
From stdpp Require Import base option list strings gmap.
Import ListNotations.
Open Scope string_scope.
Open Scope list_scope.

(** ** Values of the host library *)

(** Errors that can travel through [throw] / [catch] and callbacks. *)
Inductive Error : Type :=
| Err (message : string)          (* new Error(message) *)
| TypeError (message : string)    (* raised by the JavaScript runtime *)
| LibUSBError (errno : Z).        (* raised by the host USB library *)

(** IFACE_CLASS *)
Module IFACE_CLASS.
Definition AUDIO : Z := 0x01.
Definition HID : Z := 0x03.
Definition PRINTER : Z := 0x07.
Definition HUB : Z := 0x09.
End IFACE_CLASS.

(** Result of evaluating an expression: a value or a thrown error. *)
Inductive Completion (A : Type) : Type :=
| Normal (a : A)
| Throw (e : Error).
Arguments Normal {A} a.
Arguments Throw {A} e.

Record InterfaceDescriptor : Type := {
  bInterfaceNumber : Z;
  bInterfaceClass : Z;
}.

(** [interfaces] of a config descriptor: one array of alternate settings
    per interface. *)
Record ConfigDescriptor : Type := {
  cfg_interfaces : list (list InterfaceDescriptor);
}.

Record Endpoint : Type := {
  address : nat;
  direction : string;               (* "in" or "out" *)
}.

(** An interface object of an opened device.  The three behaviour fields
    say what the host library does when the corresponding method is
    called on this interface. *)
Record Interface : Type := {
  interfaceNumber : nat;
  altSetting : nat;
  isKernelDriverActive : Completion bool;
  detachKernelDriver : option Error;   (* the error it throws, if any *)
  claim : option Error;                (* the error it throws, if any *)
  endpoints : list Endpoint;
}.

(** A device object.  [dev_id] stands for the identity of the JavaScript
    object; [configDescriptor] is a getter and may throw or be undefined. *)
Record Device : Type := {
  dev_id : nat;
  idVendor : Z;
  idProduct : Z;
  configDescriptor : Completion (option ConfigDescriptor);
  device_open : option Error;          (* the error device.open() throws *)
  device_close : option Error;         (* the error device.close() throws *)
  interfaces : list Interface;
}.

(** JavaScript values that can sit in the [device] slot, be passed to the
    constructor, or be returned by a filter predicate. *)
Inductive Value : Type :=
| VUndefined
| VNull
| VBool (b : bool)
| VNumber (z : Z)
| VDevice (d : Device).

Definition truthy (v : Value) : bool :=
  match v with
  | VUndefined | VNull => false
  | VBool b => b
  | VNumber z => negb (z =? 0)%Z
  | VDevice _ => true
  end.

(** [a === b] for the values that occur; objects compare by identity. *)
Definition strict_eq (a b : Value) : bool :=
  match a, b with
  | VUndefined, VUndefined | VNull, VNull => true
  | VBool x, VBool y => Bool.eqb x y
  | VNumber x, VNumber y => (x =? y)%Z
  | VDevice x, VDevice y => (dev_id x =? dev_id y)%nat
  | _, _ => false
  end.

(** [device == v] where the left operand is a device object. *)
Definition loose_eq_device (d : Device) (v : Value) : bool :=
  match v with
  | VDevice d' => (dev_id d =? dev_id d')%nat
  | _ => false
  end.

Definition length_value {A} (l : list A) : Value := VNumber (Z.of_nat (length l)).

(** ** Exceptions without state: the static methods *)

Definition bindC {A B} (m : Completion A) (f : A -> Completion B) : Completion B :=
  match m with
  | Normal a => f a
  | Throw e => Throw e
  end.

Definition try_catchC {A} (m : Completion A) (h : Error -> Completion A) : Completion A :=
  match m with
  | Normal a => Normal a
  | Throw e => h e
  end.

(** [Array.prototype.filter] with a predicate that may throw. *)
Fixpoint filterC {A} (p : A -> Completion Value) (l : list A) : Completion (list A) :=
  match l with
  | [] => Normal []
  | x :: l' =>
      bindC (p x) (fun keep =>
      bindC (filterC p l') (fun rest =>
      Normal (if truthy keep then x :: rest else rest)))
  end.

(** Host library, [findByIds(vid, pid)]: the first attached device whose
    descriptor ids are strictly equal to the arguments, else undefined. *)
Definition findByIds (attached : list Device) (vid pid : Value) : option Device :=
  List.find (fun item => strict_eq (VNumber (idVendor item)) vid
                         && strict_eq (VNumber (idProduct item)) pid) attached.

(** The body of the [try] block in [findPrinter]'s filter callback:
    [device.configDescriptor?.interfaces.filter(...).length]. *)
Definition printerInterfaceCount (device : Device) : Completion Value :=
  bindC (configDescriptor device) (fun cfg =>
  match cfg with
  | None => Normal VUndefined
  | Some c =>
      bindC (filterC (fun iface =>
               bindC (filterC (fun conf =>
                        Normal (VBool (bInterfaceClass conf =? IFACE_CLASS.PRINTER)%Z))
                      iface)
                     (fun alts => Normal (length_value alts)))
             (cfg_interfaces c))
            (fun ifaces => Normal (length_value ifaces))
  end).

(** [USBAdapter.findPrinter()], over the list [getDeviceList()] returns. *)
Definition findPrinter (deviceList : list Device) : Completion (list Device) :=
  filterC (fun device =>
             try_catchC (printerInterfaceCount device)
                        (fun e => Normal (VBool false)))
          deviceList.

(** State of the promise [getDevice] returns. *)
Inductive Promise (A : Type) : Type :=
| Resolved (a : A)
| Rejected (e : Error).
Arguments Resolved {A} a.
Arguments Rejected {A} e.

(** What [write] sends: [string | Buffer]. *)
Inductive Data : Type :=
| DString (s : string)
| DBuffer (bytes : list Z).

(** Calls into the host USB library. *)
Inductive HostCall : Type :=
| DeviceOpen (d : nat)
| DeviceClose (d : nat)
| SetAltSetting (iface alt : nat)
| IsKernelDriverActive (iface : nat)
| DetachKernelDriver (iface : nat)
| Claim (iface : nat)
| TransferOut (ep : nat) (data : Data)
| TransferIn (ep : nat) (len : nat)
| UsbOn (event : string)
| UsbRemoveAllListeners (event : string).

(** [USBAdapter.getDevice(vid, pid)]: the host calls made by the executor
    and the state the promise settles in. *)
Definition getDevice (attached : list Device) (vid pid : Z)
  : list HostCall * Promise (option Device) :=
  match findByIds attached (VNumber vid) (VNumber pid) with
  | None => ([], Resolved None)                 (* device?.open() is skipped *)
  | Some device =>
      match device_open device with
      | None => ([DeviceOpen (dev_id device)], Resolved (Some device))
      | Some err => ([DeviceOpen (dev_id device)], Rejected err)
      end
  end.

(** ** The adapter object and what it does to the outside *)

Inductive EventArg : Type :=
| ArgValue (v : Value)
| ArgData (data : Data).

(** One observable action.  [Invoke cb err] is the call [cb(err)] of a
    caller-supplied callback, [None] standing for [null] / [undefined]. *)
Inductive Obs : Type :=
| Emit (event : string) (arg : EventArg)
| Invoke (callback : nat) (error : option Error)
| InvokeRead (callback : nat) (data : option Data)
| Host (call : HostCall)
| ConsoleError (e : Error).

(** A bulk transfer handed to the host and not yet completed. *)
Inductive Transfer : Type :=
| OutTransfer (ep : Endpoint) (data : Data) (callback : option nat)
| InTransfer (ep : Endpoint) (len : nat) (callback : option nat).

Record State : Type := {
  device : Value;                       (* this.device *)
  endpoint : option Endpoint;           (* this.endpoint *)
  deviceToPcEndpoint : option Endpoint; (* this.deviceToPcEndpoint *)
  detachListeners : nat;                (* this adapter's listeners on usb "detach" *)
  counters : gmap nat nat;              (* the [counter] variable of each open() call *)
  transfers : list Transfer;            (* submitted to the host, oldest first *)
  trace : list Obs;                     (* everything observable, oldest first *)
}.

Definition set_device (v : Value) (s : State) : State :=
  {| device := v; endpoint := endpoint s;
     deviceToPcEndpoint := deviceToPcEndpoint s;
     detachListeners := detachListeners s; counters := counters s;
     transfers := transfers s; trace := trace s |}.

Definition set_endpoint (e : option Endpoint) (s : State) : State :=
  {| device := device s; endpoint := e;
     deviceToPcEndpoint := deviceToPcEndpoint s;
     detachListeners := detachListeners s; counters := counters s;
     transfers := transfers s; trace := trace s |}.

Definition set_deviceToPcEndpoint (e : option Endpoint) (s : State) : State :=
  {| device := device s; endpoint := endpoint s;
     deviceToPcEndpoint := e;
     detachListeners := detachListeners s; counters := counters s;
     transfers := transfers s; trace := trace s |}.

Definition set_detachListeners (n : nat) (s : State) : State :=
  {| device := device s; endpoint := endpoint s;
     deviceToPcEndpoint := deviceToPcEndpoint s;
     detachListeners := n; counters := counters s;
     transfers := transfers s; trace := trace s |}.

Definition set_counters (c : gmap nat nat) (s : State) : State :=
  {| device := device s; endpoint := endpoint s;
     deviceToPcEndpoint := deviceToPcEndpoint s;
     detachListeners := detachListeners s; counters := c;
     transfers := transfers s; trace := trace s |}.

Definition set_transfers (t : list Transfer) (s : State) : State :=
  {| device := device s; endpoint := endpoint s;
     deviceToPcEndpoint := deviceToPcEndpoint s;
     detachListeners := detachListeners s; counters := counters s;
     transfers := t; trace := trace s |}.

Definition set_trace (t : list Obs) (s : State) : State :=
  {| device := device s; endpoint := endpoint s;
     deviceToPcEndpoint := deviceToPcEndpoint s;
     detachListeners := detachListeners s; counters := counters s;
     transfers := transfers s; trace := t |}.

(** ** The monad of method bodies: state, and exceptions that keep the
    state reached when they were thrown *)

Definition M (A : Type) : Type := State -> Completion A * State.

#[global] Instance M_ret : MRet M := fun A a s => (Normal a, s).
#[global] Instance M_bind : MBind M := fun A B f m s =>
  match m s with
  | (Normal a, s') => f a s'
  | (Throw e, s') => (Throw e, s')
  end.
#[global] Instance M_throw : MThrow Error M := fun A e s => (Throw e, s).

Definition try_catch {A} (m : M A) (h : Error -> M A) : M A := fun s =>
  match m s with
  | (Normal a, s') => (Normal a, s')
  | (Throw e, s') => h e s'
  end.

Definition get : M State := fun s => (Normal s, s).
Definition modify (f : State -> State) : M unit := fun s => (Normal tt, f s).

Definition log (o : Obs) : M unit := modify (fun s => set_trace (trace s ++ [o]) s).

(** [this.emit(event, arg)] *)
Definition emit (event : string) (arg : EventArg) : M unit := log (Emit event arg).

(** [callback && callback(error)] *)
Definition invoke (callback : option nat) (error : option Error) : M unit :=
  match callback with
  | Some cb => log (Invoke cb error)
  | None => mret tt
  end.

(** A host method that throws the given error, if any, after being entered. *)
Definition host (call : HostCall) (throws : option Error) : M unit :=
  log (Host call) ;;
  match throws with
  | Some e => mthrow e
  | None => mret tt
  end.

Fixpoint forEach {A} (f : A -> M unit) (l : list A) : M unit :=
  match l with
  | [] => mret tt
  | x :: l' => f x ;; forEach f l'
  end.

Definition is_set {A} (o : option A) : bool :=
  match o with Some _ => true | None => false end.

Definition value_of_option (o : option Device) : Value :=
  match o with Some d => VDevice d | None => VUndefined end.

(** ** constructor *)

(** The listener registered by the constructor on the host's "detach". *)
Definition detach_listener (dev : Device) : M unit :=
  self ← get;
  if loose_eq_device dev (device self) then
    emit "detach" (ArgValue (VDevice dev)) ;;
    emit "disconnect" (ArgValue (VDevice dev)) ;;
    modify (set_device VNull)
  else mret tt.

(** The host reports that [dev] was unplugged: every listener still
    registered runs. *)
Fixpoint run_listeners (n : nat) (dev : Device) : M unit :=
  match n with
  | O => mret tt
  | S n' => detach_listener dev ;; run_listeners n' dev
  end.

Definition usb_detach (dev : Device) : M unit :=
  self ← get;
  run_listeners (detachListeners self) dev.

(** The object the constructor returns once [this.device] is settled: no
    endpoint bound yet, one listener registered with [usb.on("detach")]. *)
Definition fresh_adapter (dev : Value) : State :=
  {| device := dev; endpoint := None; deviceToPcEndpoint := None;
     detachListeners := 1; counters := ∅; transfers := [];
     trace := [Host (UsbOn "detach")] |}.

(** [new USBAdapter(vid, pid)] with [attached] the devices the host sees.
    Absent arguments are [VUndefined]. *)
Definition constructor (attached : list Device) (vid pid : Value) : Completion State :=
  bindC (if truthy vid && truthy pid then
           Normal (value_of_option (findByIds attached vid pid))
         else if truthy vid then
           Normal vid
         else
           bindC (findPrinter attached) (fun devices =>
           match devices with
           | d :: _ => Normal (VDevice d)
           | [] => Normal VNull
           end))
        (fun dev =>
  if negb (truthy dev) then Throw (Err "Can not find printer")
  else Normal (fresh_adapter dev)).

(** ** open *)

(** Reading a property of [this.device] throws when the slot holds [null]
    or [undefined], with a message that names which. *)
Definition null_property_error (prop : string) : Error :=
  TypeError ("Cannot read properties of null (reading '" +:+ prop +:+ "')").

Definition undefined_property_error (prop : string) : Error :=
  TypeError ("Cannot read properties of undefined (reading '" +:+ prop +:+ "')").

Definition not_a_function_error (what : string) : Error :=
  TypeError (what +:+ " is not a function").

(** [this.device.open()] *)
Definition this_device_open : M unit :=
  self ← get;
  match device self with
  | VDevice d => host (DeviceOpen (dev_id d)) (device_open d)
  | VNull => mthrow (null_property_error "open")
  | VUndefined => mthrow (undefined_property_error "open")
  | VBool _ | VNumber _ => mthrow (not_a_function_error "this.device.open")
  end.

(** [this.device.interfaces], as far as [forEach] and [length] read it. *)
Definition this_device_interfaces (prop : string) : M (list Interface) :=
  self ← get;
  match device self with
  | VDevice d => mret (interfaces d)
  | VNull => mthrow (null_property_error "interfaces")
  | VUndefined => mthrow (undefined_property_error "interfaces")
  | VBool _ | VNumber _ =>
      mthrow (undefined_property_error prop)
  end.

(** The closure [open] hands to [iface.setAltSetting]: the interface, the
    [counter] variable it shares with its siblings, and [callback]. *)
Record Task : Type := {
  task_iface : Interface;
  task_counter : nat;
  task_callback : option nat;
}.

(** [let counter = 0]: a fresh variable for this call of [open]. *)
Definition new_counter : M nat := fun s =>
  let k := fresh (dom (counters s)) in
  (Normal k, set_counters (<[k := 0]> (counters s)) s).

(** [++counter] *)
Definition incr_counter (k : nat) : M nat := fun s =>
  let c := S (default 0 (counters s !! k)) in
  (Normal c, set_counters (<[k := c]> (counters s)) s).

Fixpoint schedule (k : nat) (callback : option nat) (ifaces : list Interface)
  : M (list Task) :=
  match ifaces with
  | [] => mret []
  | iface :: rest =>
      log (Host (SetAltSetting (interfaceNumber iface) (altSetting iface))) ;;
      tasks ← schedule k callback rest;
      mret ({| task_iface := iface; task_counter := k;
               task_callback := callback |} :: tasks)
  end.

(** [open(callback)], up to its [return this]: the result lists the
    closures now waiting on the host, in the order they were handed over. *)
Definition open (callback : option nat) : M (list Task) :=
  k ← new_counter;
  this_device_open ;;
  ifaces ← this_device_interfaces "forEach";
  schedule k callback ifaces.

(** The body of [iface.endpoints.filter(...)]'s callback. *)
Definition classify_endpoint (ep : Endpoint) : M unit :=
  self ← get;
  (if String.eqb (direction ep) "out" && negb (is_set (endpoint self))
   then modify (set_endpoint (Some ep)) else mret tt) ;;
  self ← get;
  (if String.eqb (direction ep) "in" && negb (is_set (deviceToPcEndpoint self))
   then modify (set_deviceToPcEndpoint (Some ep)) else mret tt).

Definition EndpointNotFound : Error := Err "Can not find endpoint from printer".

Section Platform.

(** [os.platform()] *)
Variable platform : string.

(** The block guarded by [os.platform() !== "win32"]: a failed detach
    is logged and goes no further. *)
Definition release_kernel_driver (iface : Interface) : M unit :=
  if negb (String.eqb platform "win32") then
    active ← (host (IsKernelDriverActive (interfaceNumber iface)) None ;;
               match isKernelDriverActive iface with
               | Normal b => mret b
               | Throw e => mthrow e
               end);
    if (active : bool) then
      try_catch
        (host (DetachKernelDriver (interfaceNumber iface)) (detachKernelDriver iface))
        (fun e => log (ConsoleError e))
    else mret tt
  else mret tt.

(** [if (self.endpoint) ... else if (++counter === ... && !self.endpoint) ...] *)
Definition report (t : Task) : M unit :=
  self ← get;
  if is_set (endpoint self) then
    emit "connect" (ArgValue (device self)) ;;
    invoke (task_callback t) None
  else
    c ← incr_counter (task_counter t);
    ifaces ← this_device_interfaces "length";
    self ← get;
    if (c =? length ifaces)%nat && negb (is_set (endpoint self)) then
      invoke (task_callback t) (Some EndpointNotFound)
    else mret tt.

(** What runs when the host calls back from [setAltSetting]. *)
Definition iface_callback (t : Task) : M unit :=
  let iface := task_iface t in
  try_catch
    (release_kernel_driver iface ;;
     host (Claim (interfaceNumber iface)) (claim iface) ;;
     forEach classify_endpoint (endpoints iface) ;;
     report t)
    (fun err => invoke (task_callback t) (Some err)).

(** The host calls back the given closures one after the other. *)
Definition run_callbacks (tasks : list Task) : M unit :=
  forEach iface_callback tasks.

End Platform.

(** ** read, write *)

(** [write(data, callback)] *)
Definition write (data : Data) (callback : option nat) : M unit :=
  emit "data" (ArgData data) ;;
  self ← get;
  match endpoint self with
  | None => mthrow (undefined_property_error "transfer")
  | Some ep =>
      log (Host (TransferOut (address ep) data)) ;;
      modify (fun s => set_transfers (transfers s ++ [OutTransfer ep data callback]) s)
  end.

(** [read(callback)] *)
Definition read (callback : option nat) : M unit :=
  self ← get;
  match deviceToPcEndpoint self with
  | None => mthrow (undefined_property_error "transfer")
  | Some ep =>
      log (Host (TransferIn (address ep) 64)) ;;
      modify (fun s => set_transfers (transfers s ++ [InTransfer ep 64 callback]) s)
  end.

(** The host completes the pending transfer at position [i]: an OUT
    transfer calls [callback(error)] directly, an IN transfer goes through
    [read]'s wrapper, which passes only the data on. *)
Definition transfer_done (i : nat) (error : option Error) (received : option Data)
  : M unit :=
  self ← get;
  match transfers self !! i with
  | None => mret tt
  | Some (OutTransfer _ _ cb) =>
      modify (fun s => set_transfers (delete i (transfers s)) s) ;;
      invoke cb error
  | Some (InTransfer _ _ cb) =>
      modify (fun s => set_transfers (delete i (transfers s)) s) ;;
      match cb with
      | Some f => log (InvokeRead f received)
      | None => mret tt
      end
  end.

(** ** close *)

(** [this.device.close()] *)
Definition this_device_close : M unit :=
  self ← get;
  match device self with
  | VDevice d => host (DeviceClose (dev_id d)) (device_close d)
  | VNull => mthrow (null_property_error "close")
  | VUndefined => mthrow (undefined_property_error "close")
  | VBool _ | VNumber _ => mthrow (not_a_function_error "this.device.close")
  end.

(** [close(callback)] *)
Definition close (callback : option nat) : M unit :=
  self ← get;
  (if negb (truthy (device self)) then invoke callback None else mret tt) ;;
  try_catch
    (this_device_close ;;
     host (UsbRemoveAllListeners "detach") None ;;
     modify (set_detachListeners 0) ;;
     invoke callback None ;;
     self ← get;
     emit "close" (ArgValue (device self)))
    (fun err => invoke callback (Some err)).

(** ** Reading a trace *)

Definition callback_calls (t : list Obs) : list (nat * option Error) :=
  omap (fun o => match o with Invoke cb e => Some (cb, e) | _ => None end) t.

Definition events (t : list Obs) : list (string * EventArg) :=
  omap (fun o => match o with Emit ev a => Some (ev, a) | _ => None end) t.

Definition host_calls (t : list Obs) : list HostCall :=
  omap (fun o => match o with Host c => Some c | _ => None end) t.

(** How many times "connect" was emitted. *)
Definition connects (t : list Obs) : nat :=
  length (List.filter (fun e => String.eqb (fst e) "connect") (events t)).

(** The calls [callback && callback(error)] makes. *)
Definition calls (callback : option nat) (error : option Error)
  : list (nat * option Error) :=
  match callback with
  | Some cb => [(cb, error)]
  | None => []
  end.

(** ** Predicates and functions the properties are stated with *)

(** A device exposes a printer interface: its descriptor can be read and
    some alternate setting of some interface has class PRINTER. *)
Definition exposes_printer (d : Device) : Prop :=
  exists cfg iface conf,
    configDescriptor d = Normal (Some cfg) /\
    In iface (cfg_interfaces cfg) /\ In conf iface /\
    bInterfaceClass conf = IFACE_CLASS.PRINTER.

Definition exposes_printerb (d : Device) : bool :=
  match configDescriptor d with
  | Normal (Some cfg) =>
      existsb (existsb (fun conf => (bInterfaceClass conf =? IFACE_CLASS.PRINTER)%Z))
              (cfg_interfaces cfg)
  | _ => false
  end.

(** The error, if any, thrown by an interface's closure before it looks at
    the endpoints: from [isKernelDriverActive()] (not called on win32) or
    from [claim()]. *)
Definition kernel_query_error (platform : string) (iface : Interface) : option Error :=
  if String.eqb platform "win32" then None
  else match isKernelDriverActive iface with
       | Throw e => Some e
       | Normal _ => None
       end.

Definition claim_error (platform : string) (iface : Interface) : option Error :=
  match kernel_query_error platform iface with
  | Some e => Some e
  | None => claim iface
  end.

(** The interface is claimed and its endpoints get classified. *)
Definition completes (platform : string) (iface : Interface) : bool :=
  negb (is_set (claim_error platform iface)).

Definition is_direction (dir : string) (ep : Endpoint) : bool :=
  String.eqb (direction ep) dir.

Definition has_out (iface : Interface) : bool :=
  existsb (is_direction "out") (endpoints iface).

(** A slot after the endpoints [eps] were classified: kept when already
    bound, else the first endpoint of the direction. *)
Definition bind_first (dir : string) (slot : option Endpoint) (eps : list Endpoint)
  : option Endpoint :=
  match slot with
  | Some ep => Some ep
  | None => List.find (is_direction dir) eps
  end.

(** The value of the [counter] variable a closure refers to. *)
Definition counter_of (s : State) (t : Task) : nat :=
  default 0 (counters s !! task_counter t).

(** What the [else if] of a closure passes to the callback once it has
    incremented [counter] to [c]. *)
Definition not_found_calls (dev : Value) (callback : option nat) (c : nat)
  : list (nat * option Error) :=
  match dev with
  | VDevice d =>
      if (c =? length (interfaces d))%nat
      then calls callback (Some EndpointNotFound) else []
  | VNull => calls callback (Some (null_property_error "interfaces"))
  | VUndefined => calls callback (Some (undefined_property_error "interfaces"))
  | VBool _ | VNumber _ => calls callback (Some (undefined_property_error "length"))
  end.

(** A stretch of trace with no event and no callback call in it. *)
Definition quiet (tr : list Obs) : Prop :=
  callback_calls tr = [] /\ events tr = [].

(** How often a run of closures over [ifaces] emits "connect", given
    whether the write slot is bound when it starts. *)
Fixpoint connect_count (platform : string) (bound : bool) (ifaces : list Interface)
  : nat :=
  match ifaces with
  | [] => 0
  | iface :: rest =>
      if completes platform iface then
        if bound || has_out iface then S (connect_count platform true rest)
        else connect_count platform false rest
      else connect_count platform bound rest
  end.

(** What a run of closures over [ifaces] passes to [callback] while the
    write slot stays unbound and the device has [n] interfaces, [c] being
    the value of [counter] when the run starts. *)
Fixpoint unbound_calls (platform : string) (n : nat) (callback : option nat)
    (c : nat) (ifaces : list Interface) : list (nat * option Error) :=
  match ifaces with
  | [] => []
  | iface :: rest =>
      match claim_error platform iface with
      | Some e =>
          calls callback (Some e) ++ unbound_calls platform n callback c rest
      | None =>
          (if (S c =? n)%nat then calls callback (Some EndpointNotFound) else [])
          ++ unbound_calls platform n callback (S c) rest
      end
  end.

(** ** Two properties the specification asks of open *)

(** A claim failure met while a write endpoint is bound is swallowed: it
    leaves the callback alone. *)
Definition claim_failure_swallowed (platform : string) (t : Task) (s : State) : Prop :=
  is_set (endpoint s) = true ->
  callback_calls (trace (snd (iface_callback platform t s))) = callback_calls (trace s).

(** One [open] emits "connect" at most once. *)
Definition connect_at_most_once (before after : State) : Prop :=
  connects (trace after) <= connects (trace before) + 1.

(** ** Sample devices *)

Module Sample.

Definition ep_out : Endpoint := {| address := 1; direction := "out" |}.
Definition ep_in : Endpoint := {| address := 129; direction := "in" |}.

(** An interface that can be claimed. *)
Definition iface_free (n : nat) (eps : list Endpoint) : Interface :=
  {| interfaceNumber := n; altSetting := 0;
     isKernelDriverActive := Normal true; detachKernelDriver := None;
     claim := None; endpoints := eps |}.

(** An interface held by another process: LIBUSB_ERROR_ACCESS. *)
Definition iface_busy (n : nat) (eps : list Endpoint) : Interface :=
  {| interfaceNumber := n; altSetting := 0;
     isKernelDriverActive := Normal false; detachKernelDriver := None;
     claim := Some (LibUSBError (-3)); endpoints := eps |}.

Definition printer_descriptor : ConfigDescriptor :=
  {| cfg_interfaces := [[{| bInterfaceNumber := 0;
                             bInterfaceClass := IFACE_CLASS.PRINTER |}]] |}.

Definition printer (ifaces : list Interface) : Device :=
  {| dev_id := 7; idVendor := 0x04b8; idProduct := 0x0202;
     configDescriptor := Normal (Some printer_descriptor);
     device_open := None; device_close := None; interfaces := ifaces |}.

(** A device whose descriptor cannot be read. *)
Definition unreadable : Device :=
  {| dev_id := 8; idVendor := 0x1234; idProduct := 0x0001;
     configDescriptor := Throw (LibUSBError (-5));
     device_open := None; device_close := None; interfaces := [] |}.

(** A device the host cannot open. *)
Definition locked : Device :=
  {| dev_id := 9; idVendor := 0x04b8; idProduct := 0x0e15;
     configDescriptor := Normal (Some printer_descriptor);
     device_open := Some (LibUSBError (-3)); device_close := None;
     interfaces := [iface_free 0 [ep_out; ep_in]] |}.

(** One interface with a write endpoint, and a second interface. *)
Definition two_free : Device :=
  printer [iface_free 0 [ep_out; ep_in]; iface_free 1 [ep_in]].
Definition free_then_busy : Device :=
  printer [iface_free 0 [ep_out; ep_in]; iface_busy 1 []].
Definition read_only : Device := printer [iface_free 0 [ep_in]].

(** [open(cb)], then every closure called back in the order scheduled. *)
Definition open_and_run (platform : string) (cb : option nat) : M unit :=
  tasks ← open cb; run_callbacks platform tasks.

End Sample.

Module Run.

(** The state a computation leaves, and the closures [open] scheduled. *)
Definition after {A} (m : M A) (s : State) : State := snd (m s).

Definition scheduled (cb : option nat) (s : State) : list Task :=
  match fst (open cb s) with
  | Normal tasks => tasks
  | Throw _ => []
  end.

(** Fresh adapters over the sample devices, callback number 0. *)
Definition two_free : State := fresh_adapter (VDevice Sample.two_free).
Definition free_then_busy : State := fresh_adapter (VDevice Sample.free_then_busy).
Definition read_only : State := fresh_adapter (VDevice Sample.read_only).

(** [free_then_busy] once interface 0 has bound the write endpoint, and
    the closure of interface 1 still to run. *)
Definition bound : State :=
  after (run_callbacks "linux" (take 1 (scheduled (Some 0) free_then_busy)))
        (after (open (Some 0)) free_then_busy).

Definition busy_closure : Task :=
  {| task_iface := Sample.iface_busy 1 [];
     task_counter := 0; task_callback := Some 0 |}.

(** [read_only] after its device was unplugged. *)
Definition detached : State := after (usb_detach Sample.read_only) read_only.

End Run.

(** ** What one closure, and a run of closures, appends and leaves *)

(** The trace of [callback && callback(error)]. *)
Definition invoke_trace (callback : option nat) (error : option Error) : list Obs :=
  match callback with
  | Some cb => [Invoke cb error]
  | None => []
  end.

(** The trace of the kernel-driver block of an interface's closure. *)
Definition kernel_driver_trace (platform : string) (iface : Interface) : list Obs :=
  if String.eqb platform "win32" then []
  else
    Host (IsKernelDriverActive (interfaceNumber iface))
    :: match isKernelDriverActive iface with
       | Normal true =>
           Host (DetachKernelDriver (interfaceNumber iface))
           :: match detachKernelDriver iface with
              | Some e => [ConsoleError e]
              | None => []
              end
       | _ => []
       end.

(** The trace of the closure's last step, [bound] saying whether the write
    slot is bound by then and [c] being the incremented counter. *)
Definition report_trace (dev : Value) (bound : bool) (callback : option nat) (c : nat)
  : list Obs :=
  if bound then Emit "connect" (ArgValue dev) :: invoke_trace callback None
  else
    match dev with
    | VDevice d =>
        if (c =? length (interfaces d))%nat
        then invoke_trace callback (Some EndpointNotFound) else []
    | VNull => invoke_trace callback (Some (null_property_error "interfaces"))
    | VUndefined => invoke_trace callback (Some (undefined_property_error "interfaces"))
    | VBool _ | VNumber _ => invoke_trace callback (Some (undefined_property_error "length"))
    end.

Definition closure_trace (platform : string) (t : Task) (s : State) : list Obs :=
  let iface := task_iface t in
  kernel_driver_trace platform iface
  ++ match kernel_query_error platform iface with
     | Some e => invoke_trace (task_callback t) (Some e)
     | None =>
         Host (Claim (interfaceNumber iface))
         :: match claim iface with
            | Some e => invoke_trace (task_callback t) (Some e)
            | None =>
                report_trace (device s) (is_set (endpoint s) || has_out iface)
                             (task_callback t) (S (counter_of s t))
            end
     end.

(** The state a closure leaves. *)
Definition closure_state (platform : string) (t : Task) (s : State) : State :=
  let eps := endpoints (task_iface t) in
  match claim_error platform (task_iface t) with
  | Some _ => set_trace (trace s ++ closure_trace platform t s) s
  | None =>
      let s1 := set_deviceToPcEndpoint (bind_first "in" (deviceToPcEndpoint s) eps)
                  (set_endpoint (bind_first "out" (endpoint s) eps) s) in
      set_trace (trace s ++ closure_trace platform t s)
        (if is_set (endpoint s) || has_out (task_iface t) then s1
         else set_counters (<[task_counter t := S (counter_of s t)]> (counters s)) s1)
  end.

(** The state a run of closures leaves. *)
Definition run_state (platform : string) (tasks : list Task) (s : State) : State :=
  fold_left (fun st t => closure_state platform t st) tasks s.

(** The closures [open] schedules for a device. *)
Definition tasks_for (k : nat) (cb : option nat) (ifaces : list Interface) : list Task :=
  map (fun i => {| task_iface := i; task_counter := k; task_callback := cb |}) ifaces.

(** What a closure passes to the callback while the write slot is bound:
    [null] when its interface is claimed, else the error. *)
Definition bound_calls (platform : string) (t : Task) : list (nat * option Error) :=
  calls (task_callback t) (claim_error platform (task_iface t)).

(** The slot, when bound, holds an endpoint of the given direction. *)
Definition slot_direction (dir : string) (slot : option Endpoint) : Prop :=
  forall ep, slot = Some ep -> direction ep = dir.

Definition ids_match (vid pid : Z) (d : Device) : Prop :=
  idVendor d = vid /\ idProduct d = pid.

(** An interface that differs only in what [detachKernelDriver] does. *)
Definition with_detachKernelDriver (o : option Error) (iface : Interface) : Interface :=
  {| interfaceNumber := interfaceNumber iface; altSetting := altSetting iface;
     isKernelDriverActive := isKernelDriverActive iface;
     detachKernelDriver := o; claim := claim iface;
     endpoints := endpoints iface |}.

Definition with_iface (iface : Interface) (t : Task) : Task :=
  {| task_iface := iface; task_counter := task_counter t;
     task_callback := task_callback t |}.

Module Scenario.

(** An interface whose kernel driver refuses to let go. *)
Definition iface_stuck (n : nat) (eps : list Endpoint) : Interface :=
  {| interfaceNumber := n; altSetting := 0;
     isKernelDriverActive := Normal true;
     detachKernelDriver := Some (LibUSBError (-5));
     claim := None; endpoints := eps |}.

(** An interface on which the kernel-driver query itself fails. *)
Definition iface_gone (n : nat) (eps : list Endpoint) : Interface :=
  {| interfaceNumber := n; altSetting := 0;
     isKernelDriverActive := Throw (LibUSBError (-4));
     detachKernelDriver := None;
     claim := None; endpoints := eps |}.

Definition closure (iface : Interface) : Task :=
  {| task_iface := iface; task_counter := 0; task_callback := Some 0 |}.

(** A device whose [close()] fails. *)
Definition unclosable : Device :=
  {| dev_id := 10; idVendor := 0x0416; idProduct := 0x5011;
     configDescriptor := Normal (Some Sample.printer_descriptor);
     device_open := None; device_close := Some (LibUSBError (-99));
     interfaces := [Sample.iface_free 0 [Sample.ep_out; Sample.ep_in]] |}.

(** Two interfaces without an "out" endpoint, the second one busy. *)
Definition in_only_then_busy : Device :=
  Sample.printer [Sample.iface_free 0 [Sample.ep_in]; Sample.iface_busy 1 []].

Definition one_interface : Device :=
  Sample.printer [Sample.iface_free 0 [Sample.ep_out; Sample.ep_in]].

(** A device that exposes no interface at all. *)
Definition no_interfaces : Device := Sample.printer [].

End Scenario.

(** ** A third property the specification asks of open *)

(** [open(cb)] on the adapter, every closure having run in the order
    scheduled, ends with [cb] having been passed [EndpointNotFound] and
    with no "connect" emitted. *)
Definition not_found_reported (platform : string) (cb : nat) (s : State) : Prop :=
  let s2 := Run.after (Sample.open_and_run platform (Some cb)) s in
  In (cb, Some EndpointNotFound) (callback_calls (trace s2)) /\
  connects (trace s2) = connects (trace s).

(** * Static methods *)

Lemma exposes_printerb_spec d : exposes_printerb d = true <-> exposes_printer d.
Proof.
  unfold exposes_printerb, exposes_printer. split.
  - destruct (configDescriptor d) as [[cfg|]|e]; try discriminate.
    intros H. apply existsb_exists in H as (iface & Hin & H).
    apply existsb_exists in H as (conf & Hc & H).
    exists cfg, iface, conf. repeat split; auto. now apply Z.eqb_eq.
  - intros (cfg & iface & conf & -> & Hin & Hc & Hcls).
    apply existsb_exists. exists iface. split; auto.
    apply existsb_exists. exists conf. split; auto. now apply Z.eqb_eq.
Qed.

(** A predicate that never throws turns [filterC] into [List.filter]. *)
Lemma filterC_total {A} (p : A -> Completion Value) (q : A -> bool) (l : list A) :
  (forall x, In x l -> exists v, p x = Normal v /\ truthy v = q x) ->
  filterC p l = Normal (List.filter q l).
Proof.
  induction l as [|x l IH]; intros Hp; simpl; [reflexivity|].
  destruct (Hp x) as (v & -> & Hv); [now left|]. simpl.
  rewrite IH by (intros y Hy; apply Hp; now right). simpl.
  now rewrite Hv.
Qed.

Lemma truthy_length_filter {A} (f : A -> bool) (l : list A) :
  truthy (length_value (List.filter f l)) = existsb f l.
Proof.
  unfold length_value. induction l as [|x l IH]; simpl; [reflexivity|].
  destruct (f x); simpl; [|exact IH].
  destruct (Z.eqb_spec (Z.of_nat (S (length (List.filter f l)))) 0); [lia|reflexivity].
Qed.

(** The guarded filter callback of [findPrinter] decides [exposes_printerb]. *)
Lemma printer_candidate d :
  exists v, try_catchC (printerInterfaceCount d) (fun _ => Normal (VBool false)) = Normal v
            /\ truthy v = exposes_printerb d.
Proof.
  unfold printerInterfaceCount, exposes_printerb.
  destruct (configDescriptor d) as [[cfg|]|e]; simpl.
  - rewrite (filterC_total _
               (existsb (fun conf => (bInterfaceClass conf =? IFACE_CLASS.PRINTER)%Z))).
    + simpl. eexists; split; [reflexivity|]. apply truthy_length_filter.
    + intros iface _.
      rewrite (filterC_total _
                 (fun conf => (bInterfaceClass conf =? IFACE_CLASS.PRINTER)%Z)).
      * simpl. eexists; split; [reflexivity|]. apply truthy_length_filter.
      * intros conf _. eexists; split; reflexivity.
  - eexists; split; reflexivity.
  - eexists; split; reflexivity.
Qed.

Lemma findPrinter_filter devs :
  findPrinter devs = Normal (List.filter exposes_printerb devs).
Proof.
  unfold findPrinter. apply filterC_total. intros d _. apply printer_candidate.
Qed.

(** C6. [findPrinter] never throws and returns, in enumeration order,
    exactly the attached devices that expose an interface of class PRINTER
    (0x07); a device whose descriptor getter throws is not among them; and
    construction without arguments selects the first of them, failing with
    "Can not find printer" when there is none. *)
Theorem findPrinter_exactly_printers (devs : list Device) :
  exists l,
    findPrinter devs = Normal l /\
    l = List.filter exposes_printerb devs /\
    (forall d, In d l <-> In d devs /\ exposes_printer d) /\
    (forall d e, configDescriptor d = Throw e -> ~ In d l) /\
    constructor devs VUndefined VUndefined =
      match l with
      | d :: _ => Normal (fresh_adapter (VDevice d))
      | [] => Throw (Err "Can not find printer")
      end.
Proof.
  exists (List.filter exposes_printerb devs).
  split; [apply findPrinter_filter|]. split; [reflexivity|].
  split; [|split].
  - intros d. rewrite filter_In, exposes_printerb_spec. reflexivity.
  - intros d e He Hin. apply filter_In in Hin as [_ Hp].
    unfold exposes_printerb in Hp. rewrite He in Hp. discriminate.
  - unfold constructor. simpl. rewrite findPrinter_filter. simpl.
    destruct (List.filter exposes_printerb devs); reflexivity.
Qed.

Lemma findByIds_None attached vid pid :
  (forall d, In d attached -> ~ (idVendor d = vid /\ idProduct d = pid)) ->
  findByIds attached (VNumber vid) (VNumber pid) = None.
Proof.
  intros H. unfold findByIds.
  destruct (List.find _ attached) as [d|] eqn:E; [|reflexivity].
  apply find_some in E as [Hin Hm]. simpl in Hm.
  apply andb_prop in Hm as [Hv Hp].
  apply Z.eqb_eq in Hv, Hp. exfalso. apply (H d Hin). now split.
Qed.

(** C9. When no attached device has the given vendor and product ids,
    [getDevice] resolves its promise with an absent device; it makes no
    host call and does not reject. *)
Theorem getDevice_no_match_resolves (attached : list Device) (vid pid : Z) :
  (forall d, In d attached -> ~ (idVendor d = vid /\ idProduct d = pid)) ->
  getDevice attached vid pid = ([], Resolved None).
Proof.
  intros H. unfold getDevice. now rewrite findByIds_None.
Qed.

(** * Methods of the adapter *)

(** Unfolds the monad so that a method body runs on a state. *)
Ltac run_m :=
  unfold mbind, M_bind, mret, M_ret, mthrow, M_throw, try_catch, get, modify;
  cbn -[Nat.eqb].

Ltac unfold_ops :=
  unfold host, emit, invoke, log, this_device_open, this_device_close,
    this_device_interfaces.

Lemma callback_calls_app t1 t2 :
  callback_calls (t1 ++ t2) = callback_calls t1 ++ callback_calls t2.
Proof. apply omap_app. Qed.

Lemma events_app t1 t2 : events (t1 ++ t2) = events t1 ++ events t2.
Proof. apply omap_app. Qed.

Lemma host_calls_app t1 t2 : host_calls (t1 ++ t2) = host_calls t1 ++ host_calls t2.
Proof. apply omap_app. Qed.

(** C3. On an adapter whose device slot is [null], [close(cb)] calls
    [cb(null)] and then, having gone on to [this.device.close()], calls
    [cb] a second time with the TypeError that raised; it makes no host
    call and changes nothing else. *)
Theorem close_on_null_device_calls_back_twice (s : State) (cb : nat) :
  device s = VNull ->
  let s' := set_trace (trace s ++ [Invoke cb None;
                                   Invoke cb (Some (null_property_error "close"))]) s in
  close (Some cb) s = (Normal tt, s') /\
  callback_calls (trace s')
  = callback_calls (trace s) ++ [(cb, None); (cb, Some (null_property_error "close"))] /\
  host_calls (trace s') = host_calls (trace s) /\
  events (trace s') = events (trace s).
Proof.
  intros Hd s'. split; [|split; [|split]].
  - destruct s; cbn in Hd; subst.
    unfold close. unfold_ops. run_m. rewrite <- app_assoc. reflexivity.
  - unfold s'. cbn [trace set_trace]. now rewrite callback_calls_app.
  - unfold s'. cbn [trace set_trace]. rewrite host_calls_app. apply app_nil_r.
  - unfold s'. cbn [trace set_trace]. rewrite events_app. apply app_nil_r.
Qed.

Lemma run_listeners_other (n : nat) (dev : Device) (s : State) :
  loose_eq_device dev (device s) = false ->
  run_listeners n dev s = (Normal tt, s).
Proof.
  intros H. induction n as [|n IH]; [reflexivity|].
  cbn [run_listeners]. unfold detach_listener at 1. run_m.
  rewrite H. exact IH.
Qed.

Lemma usb_detach_owned (s : State) (d : Device) :
  device s = VDevice d -> detachListeners s <> 0 ->
  usb_detach d s =
    (Normal tt,
     set_device VNull
       (set_trace (trace s ++ [Emit "detach" (ArgValue (VDevice d));
                               Emit "disconnect" (ArgValue (VDevice d))]) s)).
Proof.
  intros Hd Hn. unfold usb_detach. run_m.
  destruct (detachListeners s) as [|n] eqn:En; [congruence|].
  cbn [run_listeners]. unfold detach_listener at 1. unfold_ops. run_m.
  rewrite Hd. cbn. rewrite Nat.eqb_refl.
  rewrite run_listeners_other by reflexivity.
  rewrite <- app_assoc. reflexivity.
Qed.

Lemma usb_detach_other (s : State) (d' : Device) :
  loose_eq_device d' (device s) = false ->
  usb_detach d' s = (Normal tt, s).
Proof.
  intros H. unfold usb_detach. run_m. now apply run_listeners_other.
Qed.

(** C7. When the host reports the owned device detached while the
    adapter's listener is registered, the adapter emits "detach", then
    "disconnect", and sets its device slot to [null]; a notification for
    any other device changes nothing.  The [close(cb)] that follows calls
    [cb(null)] and then calls [cb] again with a TypeError. *)
Theorem detach_then_close_calls_back_twice (s : State) (d : Device) (cb : nat) :
  device s = VDevice d -> detachListeners s <> 0 ->
  let s1 := set_device VNull
              (set_trace (trace s ++ [Emit "detach" (ArgValue (VDevice d));
                                      Emit "disconnect" (ArgValue (VDevice d))]) s) in
  usb_detach d s = (Normal tt, s1) /\
  close (Some cb) s1 =
    (Normal tt,
     set_trace (trace s1 ++ [Invoke cb None;
                             Invoke cb (Some (null_property_error "close"))]) s1) /\
  (forall d', dev_id d' <> dev_id d -> usb_detach d' s = (Normal tt, s)).
Proof.
  intros Hd Hn s1. split; [|split].
  - now apply usb_detach_owned.
  - destruct s; cbn in *; subst.
    unfold close. unfold_ops. run_m. rewrite <- app_assoc. reflexivity.
  - intros d' Hne. apply usb_detach_other. rewrite Hd. cbn.
    now apply Nat.eqb_neq.
Qed.

(** C4. [open] throws synchronously, without calling back, both when the
    device slot is [null] (the TypeError of reading [open] off it) and
    when the host's [device.open()] throws (that error). *)
Theorem open_throws_synchronously (s : State) (cb : option nat) (e : Error) :
  (device s = VNull /\ e = null_property_error "open") \/
  (exists d, device s = VDevice d /\ device_open d = Some e) ->
  exists s', open cb s = (Throw e, s') /\
             callback_calls (trace s') = callback_calls (trace s) /\
             events (trace s') = events (trace s).
Proof.
  intros [[Hd ->]|(d & Hd & Ho)]; destruct s; cbn in Hd; subst;
    unfold open, new_counter; unfold_ops; run_m.
  - eexists; split; [reflexivity|]. cbn. split; reflexivity.
  - rewrite Ho. cbn. eexists; split; [reflexivity|]. cbn.
    rewrite callback_calls_app, events_app. cbn. now rewrite !app_nil_r.
Qed.

(** C10. With no write endpoint bound, [write(data, callback)] emits
    "data" carrying [data] and then throws a TypeError; nothing is handed
    to the host, so the callback is not invoked then or later. *)
Theorem write_without_endpoint_throws (s : State) (data : Data) (cb : option nat) :
  endpoint s = None ->
  write data cb s =
    (Throw (undefined_property_error "transfer"),
     set_trace (trace s ++ [Emit "data" (ArgData data)]) s) /\
  callback_calls (trace (snd (write data cb s))) = callback_calls (trace s) /\
  transfers (snd (write data cb s)) = transfers s.
Proof.
  intros He.
  assert (write data cb s =
            (Throw (undefined_property_error "transfer"),
             set_trace (trace s ++ [Emit "data" (ArgData data)]) s)) as ->.
  { destruct s; cbn in He; subst. unfold write. unfold_ops. run_m. reflexivity. }
  cbn. rewrite callback_calls_app. cbn. rewrite app_nil_r. auto.
Qed.

(** C8. On an adapter with a write endpoint bound, [write(buf, cb)] emits
    "data" carrying [buf] and only then submits the bulk transfer of [buf]
    on that endpoint; when the host completes this transfer without error,
    [cb] is called with no error. *)
Theorem write_then_successful_transfer (s : State) (ep : Endpoint) (buf : Data) (cb : nat) :
  endpoint s = Some ep ->
  exists s1 s2,
    write buf (Some cb) s = (Normal tt, s1) /\
    trace s1 = trace s ++ [Emit "data" (ArgData buf);
                           Host (TransferOut (address ep) buf)] /\
    transfers s1 = transfers s ++ [OutTransfer ep buf (Some cb)] /\
    transfer_done (length (transfers s)) None None s1 = (Normal tt, s2) /\
    trace s2 = trace s1 ++ [Invoke cb None] /\
    transfers s2 = transfers s.
Proof.
  intros He. destruct s as [dv e dp dl cs ts tr]; cbn in He; subst.
  unfold write. unfold_ops. run_m.
  eexists. eexists. split; [reflexivity|]. cbn.
  split; [now rewrite <- app_assoc|]. split; [reflexivity|].
  unfold transfer_done. unfold_ops. run_m.
  rewrite list_lookup_middle by reflexivity. cbn.
  split; [reflexivity|]. cbn. split; [reflexivity|].
  rewrite delete_middle. apply app_nil_r.
Qed.

(** * open: one closure *)

Lemma quiet_nil : quiet [].
Proof. split; reflexivity. Qed.

Lemma quiet_app tr1 tr2 : quiet tr1 -> quiet tr2 -> quiet (tr1 ++ tr2).
Proof.
  intros [H1 H2] [H3 H4]. split.
  - now rewrite callback_calls_app, H1, H3.
  - now rewrite events_app, H2, H4.
Qed.

Lemma set_trace_id (s : State) : set_trace (trace s ++ []) s = s.
Proof. destruct s. unfold set_trace. cbn. now rewrite app_nil_r. Qed.

Lemma set_trace_app (s : State) tr1 tr2 :
  set_trace (trace (set_trace (trace s ++ tr1) s) ++ tr2) (set_trace (trace s ++ tr1) s)
  = set_trace (trace s ++ tr1 ++ tr2) s.
Proof. unfold set_trace. cbn. now rewrite app_assoc. Qed.

Lemma invoke_run (cb : option nat) (err : option Error) (s : State) :
  exists tr, invoke cb err s = (Normal tt, set_trace (trace s ++ tr) s) /\
             callback_calls tr = calls cb err /\ events tr = [].
Proof.
  destruct cb as [f|]; unfold_ops; run_m.
  - eexists; split; [reflexivity|]. split; reflexivity.
  - exists []. rewrite set_trace_id. repeat split.
Qed.

Lemma is_set_bind_first_out (slot : option Endpoint) (iface : Interface) :
  is_set (bind_first "out" slot (endpoints iface)) = is_set slot || has_out iface.
Proof.
  destruct slot as [ep|]; [reflexivity|]. cbn. unfold has_out.
  destruct (List.find _ _) as [ep|] eqn:E.
  - apply find_some in E as [Hin Hd]. symmetry. apply existsb_exists. eauto.
  - symmetry. apply Bool.not_true_is_false. intros H.
    apply existsb_exists in H as (ep & Hin & Hd).
    now rewrite (find_none _ _ E ep Hin) in Hd.
Qed.

Lemma forEach_classify (eps : list Endpoint) (s : State) :
  forEach classify_endpoint eps s =
    (Normal tt,
     set_deviceToPcEndpoint (bind_first "in" (deviceToPcEndpoint s) eps)
       (set_endpoint (bind_first "out" (endpoint s) eps) s)).
Proof.
  revert s. induction eps as [|ep eps IH]; intros s.
  - destruct s as [dv [e|] [dp|] dl cs ts tr]; reflexivity.
  - cbn [forEach]. unfold mbind at 1, M_bind.
    assert (classify_endpoint ep s =
              (Normal tt,
               set_deviceToPcEndpoint (bind_first "in" (deviceToPcEndpoint s) [ep])
                 (set_endpoint (bind_first "out" (endpoint s) [ep]) s))) as ->.
    { unfold classify_endpoint, is_direction. run_m.
      destruct s as [dv [e|] [dp|] dl cs ts tr]; cbn;
        unfold bind_first, is_direction; cbn;
        destruct (String.eqb (direction ep) "out"), (String.eqb (direction ep) "in");
        reflexivity. }
    rewrite IH. f_equal.
    destruct s as [dv [e|] [dp|] dl cs ts tr]; cbn;
      unfold bind_first, is_direction; cbn;
      destruct (String.eqb (direction ep) "out"), (String.eqb (direction ep) "in");
      reflexivity.
Qed.

Lemma bind_run {A B} (m : M A) (f : A -> M B) (s : State) :
  (m ≫= f) s = match m s with
               | (Normal a, s') => f a s'
               | (Throw e, s') => (Throw e, s')
               end.
Proof. reflexivity. Qed.

Section Closure.

Variable platform : string.

Lemma release_kernel_driver_run (iface : Interface) (s : State) :
  exists tr,
    release_kernel_driver platform iface s =
      (match kernel_query_error platform iface with
       | Some e => Throw e
       | None => Normal tt
       end, set_trace (trace s ++ tr) s) /\ quiet tr.
Proof.
  unfold release_kernel_driver, kernel_query_error.
  destruct (String.eqb platform "win32"); cbn.
  - exists []. rewrite set_trace_id. split; [reflexivity|apply quiet_nil].
  - unfold_ops. run_m.
    destruct (isKernelDriverActive iface) as [[|]|e]; cbn.
    + destruct (detachKernelDriver iface) as [e|]; cbn;
        eexists; (split; [unfold set_trace; cbn; rewrite <- !app_assoc; reflexivity|]);
        split; reflexivity.
    + eexists; split; [reflexivity|]. split; reflexivity.
    + eexists; split; [reflexivity|]. split; reflexivity.
Qed.

(** What [report] does, by the state of the write slot. *)
Lemma report_bound (t : Task) (s : State) :
  is_set (endpoint s) = true ->
  exists tr,
    report t s = (Normal tt, set_trace (trace s ++ tr) s) /\
    callback_calls tr = calls (task_callback t) None /\
    events tr = [("connect", ArgValue (device s))].
Proof.
  intros Hb. unfold report. run_m. rewrite Hb.
  destruct (task_callback t) as [f|]; unfold_ops; run_m;
    eexists; (split; [unfold set_trace; cbn; rewrite <- ?app_assoc; reflexivity|]);
    split; reflexivity.
Qed.

Lemma report_unbound (t : Task) (s : State) :
  is_set (endpoint s) = false ->
  let c := S (counter_of s t) in
  let s1 := set_counters (<[task_counter t := c]> (counters s)) s in
  exists r tr,
    report t s = (r, set_trace (trace s ++ tr) s1) /\
    events tr = [] /\
    match r with
    | Normal _ => callback_calls tr = not_found_calls (device s) (task_callback t) c
    | Throw e => callback_calls tr = [] /\
                 calls (task_callback t) (Some e)
                 = not_found_calls (device s) (task_callback t) c
    end.
Proof.
  intros Hb c s1. unfold report, incr_counter. unfold_ops. run_m. rewrite Hb.
  fold (counter_of s t). fold c. fold s1.
  unfold not_found_calls.
  destruct (device s) as [| | b | z | d] eqn:Hd; cbn -[Nat.eqb].
  1-4: eexists; exists []; change (trace s) with (trace s1);
       rewrite set_trace_id;
       (split; [reflexivity|]); split; [reflexivity|]; split; reflexivity.
  rewrite Hb. cbn -[Nat.eqb]. rewrite Bool.andb_true_r.
  fold (counter_of s t). fold c. destruct (c =? length (interfaces d))%nat.
  - destruct (task_callback t) as [f|]; run_m.
    + exists (Normal tt), [Invoke f (Some EndpointNotFound)]. auto.
    + exists (Normal tt), []. change (trace s) with (trace s1).
      rewrite set_trace_id. auto.
  - exists (Normal tt), []. change (trace s) with (trace s1).
    rewrite set_trace_id. auto.
Qed.

Lemma host_run (c : HostCall) (throws : option Error) (s : State) :
  host c throws s =
    (match throws with Some e => Throw e | None => Normal tt end,
     set_trace (trace s ++ [Host c]) s).
Proof. unfold_ops. run_m. destruct throws; reflexivity. Qed.

(** A closure whose interface cannot be claimed passes the error to the
    callback and touches nothing else. *)
Lemma iface_callback_fails (t : Task) (s : State) (e : Error) :
  claim_error platform (task_iface t) = Some e ->
  exists tr,
    iface_callback platform t s = (Normal tt, set_trace (trace s ++ tr) s) /\
    callback_calls tr = calls (task_callback t) (Some e) /\ events tr = [].
Proof.
  unfold claim_error. intros He.
  unfold iface_callback, try_catch. rewrite bind_run.
  destruct (release_kernel_driver_run (task_iface t) s) as (tr0 & -> & Hq0 & Hq0').
  destruct (kernel_query_error platform (task_iface t)) as [e'|].
  - injection He as ->.
    destruct (invoke_run (task_callback t) (Some e) (set_trace (trace s ++ tr0) s))
      as (tr1 & -> & Hc & Hev).
    rewrite set_trace_app. exists (tr0 ++ tr1). split; [reflexivity|].
    rewrite callback_calls_app, events_app, Hq0, Hq0', Hc, Hev. auto.
  - rewrite bind_run, host_run, He.
    destruct (invoke_run (task_callback t) (Some e)
                (set_trace (trace (set_trace (trace s ++ tr0) s)
                            ++ [Host (Claim (interfaceNumber (task_iface t)))])
                           (set_trace (trace s ++ tr0) s)))
      as (tr1 & -> & Hc & Hev).
    rewrite !set_trace_app. eexists. split; [reflexivity|].
    rewrite !callback_calls_app, !events_app, Hq0, Hq0', Hc, Hev. auto.
Qed.

(** A closure whose interface is claimed: it binds what is still unbound
    and then reports, by the write slot. *)
Lemma iface_callback_completes (t : Task) (s : State) :
  claim_error platform (task_iface t) = None ->
  let eps := endpoints (task_iface t) in
  let s1 := set_deviceToPcEndpoint (bind_first "in" (deviceToPcEndpoint s) eps)
              (set_endpoint (bind_first "out" (endpoint s) eps) s) in
  let c := S (counter_of s t) in
  exists tr,
    if is_set (endpoint s) || has_out (task_iface t) then
      iface_callback platform t s = (Normal tt, set_trace (trace s ++ tr) s1) /\
      callback_calls tr = calls (task_callback t) None /\
      events tr = [("connect", ArgValue (device s))]
    else
      iface_callback platform t s =
        (Normal tt,
         set_trace (trace s ++ tr)
           (set_counters (<[task_counter t := c]> (counters s)) s1)) /\
      callback_calls tr = not_found_calls (device s) (task_callback t) c /\
      events tr = [].
Proof.
  intros He eps s1 c. unfold claim_error in He.
  unfold iface_callback, try_catch. rewrite bind_run.
  destruct (release_kernel_driver_run (task_iface t) s) as (tr0 & -> & Hq0 & Hq0').
  destruct (kernel_query_error platform (task_iface t)) as [e'|]; [discriminate|].
  rewrite bind_run, host_run, He, bind_run, forEach_classify.
  set (s0 := set_trace _ _). set (s2 := set_deviceToPcEndpoint _ _).
  rewrite <- is_set_bind_first_out.
  destruct (is_set (bind_first "out" (endpoint s) (endpoints (task_iface t)))) eqn:Hb.
  - destruct (report_bound t s2 Hb) as (tr1 & -> & Hc & Hev).
    exists (tr0 ++ [Host (Claim (interfaceNumber (task_iface t)))] ++ tr1).
    split; [|split].
    + unfold s2, s0, s1, set_trace. cbn. now rewrite <- !app_assoc.
    + now rewrite !callback_calls_app, Hq0, Hc.
    + now rewrite !events_app, Hq0', Hev.
  - destruct (report_unbound t s2 Hb) as (r & tr1 & -> & Hev & Hr).
    destruct r as [[]|e].
    + exists (tr0 ++ [Host (Claim (interfaceNumber (task_iface t)))] ++ tr1).
      split; [|split].
      * unfold s2, s0, s1, set_trace. cbn. now rewrite <- !app_assoc.
      * now rewrite !callback_calls_app, Hq0, Hr.
      * now rewrite !events_app, Hq0', Hev.
    + destruct Hr as [Hr1 Hr2].
      match goal with |- context [invoke ?cb ?err ?st] =>
        destruct (invoke_run cb err st) as (tr2 & -> & Hc2 & Hev2) end.
      exists (tr0 ++ [Host (Claim (interfaceNumber (task_iface t)))] ++ tr1 ++ tr2).
      split; [|split].
      * unfold s2, s0, s1, set_trace. cbn. now rewrite <- !app_assoc.
      * rewrite !callback_calls_app, Hq0, Hr1, Hc2. exact Hr2.
      * now rewrite !events_app, Hq0', Hev, Hev2.
Qed.

End Closure.

(** * open: scheduling the closures *)

Lemma schedule_run (k : nat) (cb : option nat) (ifaces : list Interface) (s : State) :
  schedule k cb ifaces s =
    (Normal (map (fun i => {| task_iface := i; task_counter := k;
                              task_callback := cb |}) ifaces),
     set_trace (trace s ++ map (fun i => Host (SetAltSetting (interfaceNumber i)
                                                             (altSetting i))) ifaces) s).
Proof.
  revert s. induction ifaces as [|i ifaces IH]; intros s; cbn [schedule map].
  - now rewrite set_trace_id.
  - rewrite bind_run. unfold log at 1, modify. rewrite bind_run, IH.
    cbv beta iota. rewrite set_trace_app. reflexivity.
Qed.

(** An [open] that returns has opened the device and scheduled one closure
    per interface, all sharing a fresh counter that starts at zero. *)
Lemma open_returns (cb : option nat) (s s1 : State) (tasks : list Task) :
  open cb s = (Normal tasks, s1) ->
  exists d k,
    device s = VDevice d /\ device_open d = None /\
    tasks = map (fun i => {| task_iface := i; task_counter := k;
                             task_callback := cb |}) (interfaces d) /\
    device s1 = device s /\ endpoint s1 = endpoint s /\
    counters s1 !! k = Some 0 /\
    events (trace s1) = events (trace s) /\
    callback_calls (trace s1) = callback_calls (trace s).
Proof.
  unfold open. rewrite bind_run. unfold new_counter. cbv beta iota zeta.
  set (k := fresh (dom (counters s))). set (s0 := set_counters _ s).
  rewrite bind_run. unfold this_device_open. rewrite bind_run.
  unfold get at 1. cbv beta iota.
  change (device s0) with (device s).
  destruct (device s) as [| | b | z | d] eqn:Hd; try discriminate.
  rewrite host_run. destruct (device_open d) as [e|] eqn:Ho; [discriminate|].
  rewrite bind_run. unfold this_device_interfaces. rewrite bind_run.
  unfold get at 1. cbv beta iota.
  match goal with |- context [device ?st] => change (device st) with (device s) end.
  rewrite Hd. unfold mret at 1, M_ret. rewrite schedule_run.
  intros [= <- <-]. exists d, k. split_and!; try reflexivity; try assumption.
  - cbn. apply lookup_insert_eq.
  - cbn. rewrite <- app_assoc, events_app. rewrite <- (app_nil_r (events (trace s))) at 2.
    f_equal. cbn. induction (interfaces d); [reflexivity|assumption].
  - cbn. rewrite <- app_assoc, callback_calls_app.
    rewrite <- (app_nil_r (callback_calls (trace s))) at 2.
    f_equal. cbn. induction (interfaces d); [reflexivity|assumption].
Qed.

Lemma open_succeeds (cb : option nat) (s : State) (d : Device) :
  device s = VDevice d -> device_open d = None ->
  exists tasks s1, open cb s = (Normal tasks, s1).
Proof.
  intros Hd Ho. unfold open. rewrite bind_run. unfold new_counter. cbv beta iota zeta.
  set (s0 := set_counters _ s).
  rewrite bind_run. unfold this_device_open. rewrite bind_run.
  unfold get at 1. cbv beta iota.
  change (device s0) with (device s). rewrite Hd, host_run, Ho.
  rewrite bind_run. unfold this_device_interfaces. rewrite bind_run.
  unfold get at 1. cbv beta iota.
  match goal with |- context [device ?st] => change (device st) with (device s) end.
  rewrite Hd. unfold mret at 1, M_ret. rewrite schedule_run. eauto.
Qed.

(** * open: a run of closures *)

Lemma connects_app t1 t2 : connects (t1 ++ t2) = connects t1 + connects t2.
Proof. unfold connects. now rewrite events_app, List.filter_app, length_app. Qed.

Lemma connects_events tr evs :
  events tr = evs ->
  connects tr = length (List.filter (fun e => String.eqb (fst e) "connect") evs).
Proof. now intros <-. Qed.

Section Runs.

Variable platform : string.

Lemma run_callbacks_cons (t : Task) (tasks : list Task) (s : State) :
  run_callbacks platform (t :: tasks) s =
    match iface_callback platform t s with
    | (Normal _, s') => run_callbacks platform tasks s'
    | (Throw e, s') => (Throw e, s')
    end.
Proof. reflexivity. Qed.

(** A run never throws, leaves the device slot alone, and emits
    "connect" [connect_count] times. *)
Lemma run_callbacks_connects (tasks : list Task) (s : State) :
  exists s',
    run_callbacks platform tasks s = (Normal tt, s') /\
    device s' = device s /\
    connects (trace s') =
      connects (trace s)
      + connect_count platform (is_set (endpoint s)) (map task_iface tasks).
Proof.
  revert s. induction tasks as [|t tasks IH]; intros s.
  - exists s. cbn. auto.
  - rewrite run_callbacks_cons. cbn [map connect_count]. unfold completes.
    destruct (claim_error platform (task_iface t)) as [e|] eqn:Hc; cbn [is_set negb].
    + destruct (iface_callback_fails platform t s e Hc) as (tr & -> & _ & Hev).
      destruct (IH (set_trace (trace s ++ tr) s)) as (s' & -> & Hd & Hn).
      exists s'. split; [reflexivity|]. split; [exact Hd|].
      rewrite Hn. cbn [endpoint set_trace trace].
      rewrite connects_app, (connects_events tr [] Hev). cbn. lia.
    + pose proof (iface_callback_completes platform t s Hc) as (tr & H).
      cbv zeta in H.
      destruct (is_set (endpoint s) || has_out (task_iface t)) eqn:Hb.
      * destruct H as (-> & _ & Hev).
        match goal with |- context [run_callbacks platform tasks ?st] =>
          destruct (IH st) as (s' & -> & Hd & Hn) end.
        exists s'. split; [reflexivity|]. split; [exact Hd|].
        rewrite Hn. cbn [endpoint set_trace set_deviceToPcEndpoint set_endpoint trace].
        rewrite is_set_bind_first_out, Hb, connects_app, (connects_events tr _ Hev).
        cbn. lia.
      * destruct H as (-> & _ & Hev).
        match goal with |- context [run_callbacks platform tasks ?st] =>
          destruct (IH st) as (s' & -> & Hd & Hn) end.
        exists s'. split; [reflexivity|]. split; [exact Hd|].
        rewrite Hn.
        cbn [endpoint set_trace set_deviceToPcEndpoint set_endpoint set_counters trace].
        rewrite is_set_bind_first_out, Hb, connects_app, (connects_events tr _ Hev).
        cbn. lia.
Qed.

Lemma connect_count_bound (ifaces : list Interface) :
  connect_count platform true ifaces
  = length (List.filter (completes platform) ifaces).
Proof.
  induction ifaces as [|i ifaces IH]; [reflexivity|]. cbn.
  destruct (completes platform i); cbn; now rewrite IH.
Qed.

Lemma connect_count_first (before after : list Interface) (i : Interface) :
  Forall (fun j => completes platform j && has_out j = false) before ->
  completes platform i = true -> has_out i = true ->
  connect_count platform false (before ++ i :: after)
  = S (length (List.filter (completes platform) after)).
Proof.
  intros Hb Hc Ho. induction Hb as [|j before Hj Hb IH]; cbn.
  - now rewrite Hc, Ho, connect_count_bound.
  - destruct (completes platform j); [|exact IH].
    cbn in Hj. now rewrite Hj.
Qed.

Lemma connect_count_none (ifaces : list Interface) :
  Forall (fun j => has_out j = false) ifaces ->
  connect_count platform false ifaces = 0.
Proof.
  induction 1 as [|j ifaces Hj _ IH]; [reflexivity|]. cbn.
  rewrite Hj. destruct (completes platform j); exact IH.
Qed.

Lemma is_set_false {A} (o : option A) : is_set o = false -> o = None.
Proof. now destruct o. Qed.

(** A run over interfaces without an "out" endpoint, started with the
    write slot unbound: the slot stays unbound, the counter counts the
    interfaces that were claimed, and the callback is passed what
    [unbound_calls] lists. *)
Lemma run_callbacks_unbound (d : Device) (k : nat) (cb : option nat)
    (tasks : list Task) (s : State) :
  device s = VDevice d -> endpoint s = None ->
  Forall (fun t => task_counter t = k /\ task_callback t = cb /\
                   has_out (task_iface t) = false) tasks ->
  exists s',
    run_callbacks platform tasks s = (Normal tt, s') /\
    endpoint s' = None /\
    default 0 (counters s' !! k)
    = default 0 (counters s !! k)
      + length (List.filter (completes platform) (map task_iface tasks)) /\
    callback_calls (trace s')
    = callback_calls (trace s)
      ++ unbound_calls platform (length (interfaces d)) cb
           (default 0 (counters s !! k)) (map task_iface tasks).
Proof.
  intros Hd He Hall. revert s Hd He.
  induction Hall as [|t tasks (Hk & Hcb & Ho) _ IH]; intros s Hd He.
  - exists s. cbn. rewrite app_nil_r. auto.
  - rewrite run_callbacks_cons. cbn [map List.filter unbound_calls]. unfold completes at 1.
    destruct (claim_error platform (task_iface t)) as [e|] eqn:Hc; cbn [is_set negb].
    + destruct (iface_callback_fails platform t s e Hc) as (tr & -> & Hcalls & _).
      destruct (IH (set_trace (trace s ++ tr) s) Hd He) as (s' & -> & He' & Hn & Hcs).
      exists s'. split; [reflexivity|]. split; [exact He'|]. split; [exact Hn|].
      rewrite Hcs. cbn [trace set_trace counters].
      now rewrite callback_calls_app, Hcalls, Hcb, <- app_assoc.
    + pose proof (iface_callback_completes platform t s Hc) as (tr & H).
      cbv zeta in H. rewrite He, Ho in H. cbn [is_set orb] in H.
      destruct H as (-> & Hcalls & _).
      match goal with |- context [run_callbacks platform tasks ?st] =>
        destruct (IH st) as (s' & -> & He' & Hn & Hcs) end.
      { exact Hd. }
      { cbn [endpoint set_trace set_counters set_deviceToPcEndpoint set_endpoint].
        apply is_set_false. now rewrite is_set_bind_first_out, Ho. }
      exists s'. split; [reflexivity|]. split; [exact He'|].
      cbn [trace counters set_trace set_counters] in Hn, Hcs.
      unfold counter_of in *. rewrite Hk in *. rewrite lookup_insert_eq in Hn, Hcs.
      cbn [default from_option] in Hn, Hcs.
      change (id (S (default 0 (counters s !! k))))
        with (S (default 0 (counters s !! k))) in Hn, Hcs.
      split; [rewrite Hn; cbn [length]; lia|].
      rewrite Hcs, callback_calls_app, Hcalls, Hd, Hcb. unfold not_found_calls.
      now rewrite <- app_assoc.
Qed.

Lemma filter_all_length {A} (f : A -> bool) (l : list A) :
  length (List.filter f l) = length l -> Forall (fun x => f x = true) l.
Proof.
  induction l as [|x l IH]; cbn; [constructor|].
  destruct (f x) eqn:Hf; cbn; intros H.
  - constructor; [exact Hf|]. apply IH. lia.
  - pose proof (List.filter_length_le f l). lia.
Qed.

Lemma filter_length_all {A} (f : A -> bool) (l : list A) :
  Forall (fun x => f x = true) l -> length (List.filter f l) = length l.
Proof.
  induction 1 as [|x l Hx _ IH]; cbn; [reflexivity|]. rewrite Hx. cbn. lia.
Qed.

(** When every interface is claimed, only the closure that brings the
    counter to [n] calls back, with [EndpointNotFound]. *)
Lemma unbound_calls_all_complete (n : nat) (cb : option nat) (c : nat)
    (ifaces : list Interface) :
  Forall (fun i => completes platform i = true) ifaces ->
  unbound_calls platform n cb c ifaces
  = if (c <? n)%nat && (n <=? c + length ifaces)%nat
    then calls cb (Some EndpointNotFound) else [].
Proof.
  intros Hall. revert c. induction Hall as [|i ifaces Hi _ IH]; intros c.
  - cbn [unbound_calls length].
    destruct (Nat.ltb_spec c n), (Nat.leb_spec n (c + 0));
      cbn [andb]; try reflexivity; lia.
  - cbn [unbound_calls length]. unfold completes in Hi.
    destruct (claim_error platform i); [discriminate|]. rewrite IH.
    destruct (Nat.eqb_spec (S c) n), (Nat.ltb_spec (S c) n),
      (Nat.leb_spec n (S c + length ifaces)), (Nat.ltb_spec c n),
      (Nat.leb_spec n (c + S (length ifaces)));
      cbn [andb app]; try lia; auto using app_nil_r.
Qed.

End Runs.

(** * Properties of open *)

(** C1. A closure whose [claim()] throws always passes the error to the
    open callback, whether or not a write endpoint is bound; it emits
    nothing and leaves both endpoint slots, the device slot and the counter
    as they were, so an adapter that had bound a write endpoint keeps it. *)
Theorem claim_failure_always_reaches_callback
    (platform : string) (t : Task) (s : State) (e : Error) :
  claim (task_iface t) = Some e ->
  kernel_query_error platform (task_iface t) = None ->
  exists s',
    iface_callback platform t s = (Normal tt, s') /\
    callback_calls (trace s')
    = callback_calls (trace s) ++ calls (task_callback t) (Some e) /\
    events (trace s') = events (trace s) /\
    endpoint s' = endpoint s /\
    deviceToPcEndpoint s' = deviceToPcEndpoint s /\
    device s' = device s /\
    counters s' = counters s.
Proof.
  intros Hc Hk.
  assert (claim_error platform (task_iface t) = Some e) as He
    by (unfold claim_error; now rewrite Hk).
  destruct (iface_callback_fails platform t s e He) as (tr & -> & Hcalls & Hev).
  eexists. split; [reflexivity|]. cbn [trace set_trace].
  rewrite callback_calls_app, events_app, Hcalls, Hev, app_nil_r.
  split_and!; reflexivity.
Qed.

(** Opening a device none of whose interfaces has an "out" endpoint, on an
    adapter with no write endpoint bound: "connect" is not emitted; the
    counter reaches the number of interfaces when every interface is
    claimed; and when it has, on a device with at least one interface, the
    callback has been called once, with [EndpointNotFound]. *)
Lemma open_without_out_endpoint_counted
    (platform : string) (cb : option nat) (s s1 : State) (d : Device)
    (tasks sched : list Task) :
  device s = VDevice d -> endpoint s = None ->
  (forall i ep, In i (interfaces d) -> In ep (endpoints i) -> direction ep <> "out") ->
  open cb s = (Normal tasks, s1) ->
  Permutation sched tasks ->
  exists s2,
    run_callbacks platform sched s1 = (Normal tt, s2) /\
    connects (trace s2) = connects (trace s) /\
    (Forall (fun i => completes platform i = true) (interfaces d) ->
     Forall (fun t => counter_of s2 t = length (interfaces d)) tasks) /\
    (interfaces d <> [] ->
     Forall (fun t => counter_of s2 t = length (interfaces d)) tasks ->
     callback_calls (trace s2)
     = callback_calls (trace s) ++ calls cb (Some EndpointNotFound)).
Proof.
  intros Hd He Hno Ho Hp.
  destruct (open_returns cb s s1 tasks Ho)
    as (d' & k & Hd' & _ & Ht & Hd1 & He1 & Hk & Hev & Hcalls).
  rewrite Hd in Hd'. injection Hd' as <-.
  assert (Forall (fun i => has_out i = false) (interfaces d)) as Hout.
  { apply List.Forall_forall. intros i Hi. unfold has_out.
    apply Bool.not_true_is_false. intros H.
    apply existsb_exists in H as (ep & Hep & Hdir).
    apply String.eqb_eq in Hdir. exact (Hno i ep Hi Hep Hdir). }
  assert (Forall (fun t => task_counter t = k /\ task_callback t = cb /\
                           has_out (task_iface t) = false) tasks) as Hall.
  { subst tasks. apply List.Forall_forall. intros t Hin.
    apply in_map_iff in Hin as (i & <- & Hi). cbn.
    rewrite List.Forall_forall in Hout. auto. }
  assert (Hall' := Permutation_Forall (Permutation_sym Hp) Hall).
  assert (length sched = length (interfaces d)) as Hlen.
  { rewrite (Permutation_length Hp), Ht. apply length_map. }
  destruct (run_callbacks_unbound platform d k cb sched s1)
    as (s2 & Hr & He2 & Hn & Hcs); [congruence|congruence|exact Hall'|].
  rewrite Hk in Hn, Hcs. cbn [default from_option] in Hn, Hcs.
  change (id 0) with 0 in Hn, Hcs. cbn [Nat.add] in Hn.
  exists s2. split; [exact Hr|]. split; [|split].
  - destruct (run_callbacks_connects platform sched s1) as (s2' & Hr' & _ & Hc).
    rewrite Hr in Hr'. injection Hr' as <-.
    rewrite Hc, He1, He. cbn [is_set]. rewrite connect_count_none.
    + unfold connects. rewrite Hev. lia.
    + apply List.Forall_forall. intros i Hi.
      apply in_map_iff in Hi as (t & <- & Hin).
      rewrite List.Forall_forall in Hall'. now apply Hall'.
  - intros Hcomp. apply List.Forall_forall. intros t Hin.
    rewrite List.Forall_forall in Hall. destruct (Hall t Hin) as (Hk' & _).
    unfold counter_of. rewrite Hk', Hn, filter_length_all, length_map; [exact Hlen|].
    apply List.Forall_forall. intros i Hi.
    apply (Permutation_in _ (Permutation_map task_iface Hp)) in Hi.
    rewrite Ht, map_map in Hi. cbn in Hi. rewrite map_id in Hi.
    rewrite List.Forall_forall in Hcomp. now apply Hcomp.
  - intros Hne Hreached.
    assert (default 0 (counters s2 !! k) = length (interfaces d)) as Hc.
    { destruct tasks as [|t tasks'].
      - destruct (interfaces d); [congruence|discriminate].
      - inversion Hreached as [|? ? Ht0 _]; subst.
        inversion Hall as [|? ? (Hk' & _) _]; subst.
        unfold counter_of in Ht0. exact Ht0. }
    rewrite Hn in Hc.
    assert (Forall (fun i => completes platform i = true) (map task_iface sched)) as Hcomp.
    { apply filter_all_length. rewrite length_map. lia. }
    rewrite Hcs, Hcalls, (unbound_calls_all_complete platform _ _ _ _ Hcomp).
    rewrite length_map, Hlen.
    destruct (interfaces d) as [|i0 l0]; [congruence|]. cbn [length].
    destruct (Nat.ltb_spec 0 (S (length l0))); [|lia].
    destruct (Nat.leb_spec (S (length l0)) (0 + S (length l0))); [|lia].
    reflexivity.
Qed.

(** C5. Opening a device none of whose interfaces has an "out" endpoint,
    on an adapter with no write endpoint bound: however the closures are
    ordered and whatever their claims do, "connect" is not emitted; and
    when the device has at least one interface and every interface is
    claimed, then once all closures have run the shared counter equals
    the number of interfaces and the callback has been called exactly
    once, with [EndpointNotFound]. *)
Theorem open_without_out_endpoint_reports_not_found
    (platform : string) (cb : option nat) (s s1 : State) (d : Device)
    (tasks sched : list Task) :
  device s = VDevice d -> endpoint s = None ->
  (forall i ep, In i (interfaces d) -> In ep (endpoints i) -> direction ep <> "out") ->
  open cb s = (Normal tasks, s1) ->
  Permutation sched tasks ->
  exists s2,
    run_callbacks platform sched s1 = (Normal tt, s2) /\
    connects (trace s2) = connects (trace s) /\
    (interfaces d <> [] ->
     Forall (fun i => completes platform i = true) (interfaces d) ->
     Forall (fun t => counter_of s2 t = length (interfaces d)) tasks /\
     callback_calls (trace s2)
     = callback_calls (trace s) ++ calls cb (Some EndpointNotFound)).
Proof.
  intros Hd He Hno Ho Hp.
  destruct (open_without_out_endpoint_counted platform cb s s1 d tasks sched
              Hd He Hno Ho Hp) as (s2 & Hr & Hc & Hreach & Hcalls).
  exists s2. split; [exact Hr|]. split; [exact Hc|].
  intros Hne Hall. split; [now apply Hreach|].
  apply Hcalls; [exact Hne|now apply Hreach].
Qed.

(** * The properties on sample devices *)

(** One readable printer and one device whose descriptor throws: only the
    printer is a candidate. *)
Example findPrinter_skips_unreadable :
  findPrinter [Sample.unreadable; Sample.read_only] = Normal [Sample.read_only].
Proof. reflexivity. Qed.

(** [new USBAdapter(device)] *)
Example constructor_with_device :
  constructor [] (VDevice Sample.read_only) VUndefined = Normal Run.read_only.
Proof. reflexivity. Qed.

Example busy_closure_scheduled :
  Run.scheduled (Some 0) Run.free_then_busy
  = [ {| task_iface := Sample.iface_free 0 [Sample.ep_out; Sample.ep_in];
         task_counter := 0; task_callback := Some 0 |};
      Run.busy_closure ].
Proof. reflexivity. Qed.

(** Interface 0 binds the write endpoint and the callback hears success;
    interface 1 then fails to be claimed and the callback hears that too. *)
Example free_then_busy_calls :
  callback_calls (trace (Run.after (Sample.open_and_run "linux" (Some 0))
                                   Run.free_then_busy))
  = [(0, None); (0, Some (LibUSBError (-3)))].
Proof. reflexivity. Qed.

(** With the write endpoint bound by interface 0, the claim failure of
    interface 1 still reaches the callback. *)
Lemma claim_failure_not_swallowed :
  is_set (endpoint Run.bound) = true /\
  In Run.busy_closure (Run.scheduled (Some 0) Run.free_then_busy) /\
  ~ claim_failure_swallowed "linux" Run.busy_closure Run.bound.
Proof.
  split; [reflexivity|]. split; [right; left; reflexivity|].
  intros H. specialize (H eq_refl). vm_compute in H. discriminate H.
Qed.

(** The closure of the busy interface, run on the bound adapter. *)
Lemma claim_failure_reaches_callback_witness :
  exists s',
    iface_callback "linux" Run.busy_closure Run.bound = (Normal tt, s') /\
    callback_calls (trace s')
    = callback_calls (trace Run.bound) ++ [(0, Some (LibUSBError (-3)))] /\
    events (trace s') = events (trace Run.bound) /\
    endpoint s' = endpoint Run.bound /\
    deviceToPcEndpoint s' = deviceToPcEndpoint Run.bound /\
    device s' = device Run.bound /\
    counters s' = counters Run.bound.
Proof.
  apply (claim_failure_always_reaches_callback
           "linux" Run.busy_closure Run.bound (LibUSBError (-3)));
    reflexivity.
Defined.

(** Two interfaces that can be claimed, the first with an "out" endpoint:
    "connect" is emitted twice. *)
Lemma connect_emitted_twice :
  ~ connect_at_most_once
      Run.two_free
      (Run.after (Sample.open_and_run "linux" (Some 0)) Run.two_free).
Proof.
  unfold connect_at_most_once. vm_compute. intros H.
  apply (Nat.nle_succ_diag_l 1). exact H.
Qed.

(** A single interface with only an "in" endpoint. *)
Lemma open_without_out_endpoint_witness :
  exists s2,
    run_callbacks "linux" (Run.scheduled (Some 0) Run.read_only)
                  (Run.after (open (Some 0)) Run.read_only) = (Normal tt, s2) /\
    connects (trace s2) = connects (trace Run.read_only) /\
    Forall (fun t => counter_of s2 t = 1) (Run.scheduled (Some 0) Run.read_only) /\
    callback_calls (trace s2)
    = callback_calls (trace Run.read_only) ++ [(0, Some EndpointNotFound)].
Proof.
  destruct (open_without_out_endpoint_reports_not_found
              "linux" (Some 0) Run.read_only (Run.after (open (Some 0)) Run.read_only)
              Sample.read_only
              (Run.scheduled (Some 0) Run.read_only)
              (Run.scheduled (Some 0) Run.read_only))
    as (s2 & Hr & Hc & Hcalls).
  - reflexivity.
  - reflexivity.
  - intros i ep [<-|[]] [<-|[]]. discriminate.
  - reflexivity.
  - apply Permutation_refl.
  - exists s2. split; [exact Hr|]. split; [exact Hc|].
    apply Hcalls; [discriminate|]. repeat constructor.
Defined.

(** Two interfaces with no "out" endpoint, the second held by another
    process: both closures run and the callback is passed the claim error
    only.  A device without any interface: the callback is never called. *)
Lemma not_found_not_reported :
  ~ not_found_reported "linux" 0 (fresh_adapter (VDevice Scenario.in_only_then_busy)) /\
  callback_calls
    (trace (Run.after (Sample.open_and_run "linux" (Some 0))
                      (fresh_adapter (VDevice Scenario.in_only_then_busy))))
  = [(0, Some (LibUSBError (-3)))] /\
  ~ not_found_reported "linux" 0 (fresh_adapter (VDevice Scenario.no_interfaces)) /\
  callback_calls
    (trace (Run.after (Sample.open_and_run "linux" (Some 0))
                      (fresh_adapter (VDevice Scenario.no_interfaces))))
  = [].
Proof.
  split_and!; try reflexivity.
  - intros [Hin _]. vm_compute in Hin. destruct Hin as [H|[]]. discriminate H.
  - intros [Hin _]. vm_compute in Hin. exact Hin.
Qed.

(** [close] on the unplugged adapter: the callback hears success, then a
    TypeError. *)
Lemma close_on_null_device_witness :
  device Run.detached = VNull /\
  callback_calls (trace (Run.after (close (Some 1)) Run.detached))
  = [(1, None); (1, Some (null_property_error "close"))].
Proof.
  split; [reflexivity|].
  destruct (close_on_null_device_calls_back_twice Run.detached 1 eq_refl)
    as (Hrun & Hcalls & _).
  unfold Run.after. rewrite Hrun. exact Hcalls.
Defined.

(** Unplugging the device of a fresh adapter, then closing it. *)
Lemma detach_then_close_witness :
  usb_detach Sample.read_only Run.read_only = (Normal tt, Run.detached) /\
  close (Some 1) Run.detached =
    (Normal tt,
     set_trace (trace Run.detached
                ++ [Invoke 1 None; Invoke 1 (Some (null_property_error "close"))])
               Run.detached) /\
  (forall d', dev_id d' <> dev_id Sample.read_only ->
              usb_detach d' Run.read_only = (Normal tt, Run.read_only)).
Proof.
  exact (detach_then_close_calls_back_twice
           Run.read_only Sample.read_only 1 eq_refl (fun H => O_S 0 (eq_sym H))).
Defined.

(** [open] after the device was unplugged, and on a device the host
    cannot open. *)
Lemma open_throws_synchronously_witness :
  (exists s', open (Some 0) Run.detached = (Throw (null_property_error "open"), s') /\
              callback_calls (trace s') = callback_calls (trace Run.detached) /\
              events (trace s') = events (trace Run.detached)) /\
  (exists s', open (Some 0) (fresh_adapter (VDevice Sample.locked))
              = (Throw (LibUSBError (-3)), s') /\
              callback_calls (trace s')
              = callback_calls (trace (fresh_adapter (VDevice Sample.locked))) /\
              events (trace s') = events (trace (fresh_adapter (VDevice Sample.locked)))).
Proof.
  split.
  - apply (open_throws_synchronously Run.detached (Some 0)).
    left. split; reflexivity.
  - apply (open_throws_synchronously (fresh_adapter (VDevice Sample.locked)) (Some 0)).
    right. exists Sample.locked. split; reflexivity.
Defined.

(** No attached device has ids 0x04b8:0x0202. *)
Lemma getDevice_no_match_witness :
  getDevice [Sample.unreadable; Sample.locked] 0x04b8 0x0202 = ([], Resolved None).
Proof.
  apply getDevice_no_match_resolves.
  intros d [<-|[<-|[]]] [Hv Hp]; discriminate.
Defined.

(** [write] before [open]. *)
Lemma write_without_endpoint_witness :
  write (DString "hello") (Some 2) Run.read_only =
    (Throw (undefined_property_error "transfer"),
     set_trace (trace Run.read_only ++ [Emit "data" (ArgData (DString "hello"))])
               Run.read_only) /\
  callback_calls (trace (snd (write (DString "hello") (Some 2) Run.read_only)))
  = callback_calls (trace Run.read_only) /\
  transfers (snd (write (DString "hello") (Some 2) Run.read_only))
  = transfers Run.read_only.
Proof.
  apply (write_without_endpoint_throws Run.read_only (DString "hello") (Some 2)).
  reflexivity.
Defined.

(** [write] once interface 0 has bound the write endpoint. *)
Lemma write_then_successful_transfer_witness :
  exists s1 s2,
    write (DBuffer [27; 64]%Z) (Some 2) Run.bound = (Normal tt, s1) /\
    trace s1 = trace Run.bound
               ++ [Emit "data" (ArgData (DBuffer [27; 64]%Z));
                   Host (TransferOut 1 (DBuffer [27; 64]%Z))] /\
    transfers s1 = transfers Run.bound
                   ++ [OutTransfer Sample.ep_out (DBuffer [27; 64]%Z) (Some 2)] /\
    transfer_done (length (transfers Run.bound)) None None s1 = (Normal tt, s2) /\
    trace s2 = trace s1 ++ [Invoke 2 None] /\
    transfers s2 = transfers Run.bound.
Proof.
  apply (write_then_successful_transfer
           Run.bound Sample.ep_out (DBuffer [27; 64]%Z) 2).
  reflexivity.
Defined.

(** * One closure, exactly *)

Lemma invoke_exact (cb : option nat) (err : option Error) (s : State) :
  invoke cb err s = (Normal tt, set_trace (trace s ++ invoke_trace cb err) s).
Proof.
  destruct cb as [f|]; [reflexivity|]. cbn [invoke invoke_trace].
  now rewrite set_trace_id.
Qed.

Lemma callback_calls_invoke_trace (cb : option nat) (err : option Error) :
  callback_calls (invoke_trace cb err) = calls cb err.
Proof. now destruct cb. Qed.

Lemma events_invoke_trace (cb : option nat) (err : option Error) :
  events (invoke_trace cb err) = [].
Proof. now destruct cb. Qed.

Lemma host_calls_invoke_trace (cb : option nat) (err : option Error) :
  host_calls (invoke_trace cb err) = [].
Proof. now destruct cb. Qed.

Section ClosureExact.

Variable platform : string.

Lemma release_kernel_driver_exact (iface : Interface) (s : State) :
  release_kernel_driver platform iface s =
    (match kernel_query_error platform iface with
     | Some e => Throw e
     | None => Normal tt
     end, set_trace (trace s ++ kernel_driver_trace platform iface) s).
Proof.
  unfold release_kernel_driver, kernel_query_error, kernel_driver_trace.
  destruct (String.eqb platform "win32"); cbn.
  - now rewrite set_trace_id.
  - unfold_ops. run_m.
    destruct (isKernelDriverActive iface) as [[|]|e]; cbn; [|reflexivity..].
    destruct (detachKernelDriver iface) as [e|]; cbn;
      unfold set_trace; cbn; rewrite <- !app_assoc; reflexivity.
Qed.

Lemma report_exact (t : Task) (s : State) :
  report t s =
    let c := S (counter_of s t) in
    let s1 := set_counters (<[task_counter t := c]> (counters s)) s in
    if is_set (endpoint s) then
      (Normal tt,
       set_trace (trace s ++ report_trace (device s) true (task_callback t) c) s)
    else
      match device s with
      | VDevice _ =>
          (Normal tt,
           set_trace (trace s ++ report_trace (device s) false (task_callback t) c) s1)
      | VNull => (Throw (null_property_error "interfaces"), s1)
      | VUndefined => (Throw (undefined_property_error "interfaces"), s1)
      | VBool _ | VNumber _ => (Throw (undefined_property_error "length"), s1)
      end.
Proof.
  cbv zeta. unfold report, report_trace. rewrite bind_run. unfold get at 1. cbv beta iota.
  destruct (is_set (endpoint s)) eqn:Hb.
  - rewrite bind_run. unfold emit, log, modify. cbv beta iota.
    rewrite invoke_exact. unfold set_trace. cbn. now rewrite <- app_assoc.
  - rewrite bind_run. unfold incr_counter. cbv beta iota zeta.
    fold (counter_of s t).
    set (s1 := set_counters _ s).
    rewrite bind_run. unfold this_device_interfaces. rewrite bind_run.
    unfold get at 1. cbv beta iota.
    change (device s1) with (device s).
    destruct (device s) as [| | b | z | d]; try reflexivity.
    unfold mret at 1, M_ret. rewrite bind_run. unfold get at 1. cbv beta iota.
    change (endpoint s1) with (endpoint s). rewrite Hb. cbn [negb].
    rewrite Bool.andb_true_r.
    destruct (S (counter_of s t) =? length (interfaces d))%nat.
    + rewrite invoke_exact. reflexivity.
    + unfold mret, M_ret. change (trace s) with (trace s1). now rewrite set_trace_id.
Qed.

(** The closure of an interface never throws; it leaves [closure_state]. *)
Lemma iface_callback_exact (t : Task) (s : State) :
  iface_callback platform t s = (Normal tt, closure_state platform t s).
Proof.
  unfold iface_callback, try_catch, closure_state, closure_trace, claim_error.
  rewrite bind_run, release_kernel_driver_exact.
  destruct (kernel_query_error platform (task_iface t)) as [e|].
  - rewrite invoke_exact, set_trace_app. reflexivity.
  - rewrite bind_run, host_run.
    destruct (claim (task_iface t)) as [e|].
    + rewrite invoke_exact, !set_trace_app. reflexivity.
    + rewrite bind_run, forEach_classify, report_exact. cbv zeta.
      set (s0 := set_trace _ (set_trace _ s)).
      set (s2 := set_deviceToPcEndpoint _ _).
      change (endpoint s2) with (bind_first "out" (endpoint s) (endpoints (task_iface t))).
      change (device s2) with (device s).
      change (counter_of s2 t) with (counter_of s t).
      rewrite <- is_set_bind_first_out.
      destruct (is_set (bind_first "out" (endpoint s) (endpoints (task_iface t)))).
      * unfold s2, s0, set_trace. cbn. now rewrite <- !app_assoc.
      * unfold report_trace.
        destruct (device s) as [| | b | z | d]; cbn [negb];
          try rewrite invoke_exact;
          unfold s2, s0, set_trace; cbn; now rewrite <- !app_assoc.
Qed.

Lemma run_callbacks_exact (tasks : list Task) (s : State) :
  run_callbacks platform tasks s = (Normal tt, run_state platform tasks s).
Proof.
  revert s. induction tasks as [|t tasks IH]; intros s; [reflexivity|].
  rewrite run_callbacks_cons, iface_callback_exact. apply IH.
Qed.

End ClosureExact.

Lemma host_calls_report_trace (dev : Value) (bound : bool) (cb : option nat) (c : nat) :
  host_calls (report_trace dev bound cb c) = [].
Proof.
  unfold report_trace. destruct bound; [apply host_calls_invoke_trace|].
  destruct dev as [| | b | z | d]; try apply host_calls_invoke_trace.
  destruct (c =? length (interfaces d))%nat; [apply host_calls_invoke_trace|reflexivity].
Qed.

Section ClosureFacts.

Variable platform : string.

Lemma closure_state_trace (t : Task) (s : State) :
  trace (closure_state platform t s) = trace s ++ closure_trace platform t s.
Proof.
  unfold closure_state. destruct (claim_error platform (task_iface t)); reflexivity.
Qed.

Lemma closure_state_device (t : Task) (s : State) :
  device (closure_state platform t s) = device s.
Proof.
  unfold closure_state. destruct (claim_error platform (task_iface t)); [reflexivity|].
  cbn. now destruct (is_set (endpoint s) || has_out (task_iface t)).
Qed.

Lemma closure_state_transfers (t : Task) (s : State) :
  transfers (closure_state platform t s) = transfers s
  /\ detachListeners (closure_state platform t s) = detachListeners s.
Proof.
  unfold closure_state. destruct (claim_error platform (task_iface t)); [now split|].
  cbn. now destruct (is_set (endpoint s) || has_out (task_iface t)).
Qed.

Lemma closure_state_endpoint (t : Task) (s : State) :
  endpoint (closure_state platform t s)
  = if completes platform (task_iface t)
    then bind_first "out" (endpoint s) (endpoints (task_iface t))
    else endpoint s.
Proof.
  unfold closure_state, completes.
  destruct (claim_error platform (task_iface t)); [reflexivity|].
  cbn. now destruct (is_set (endpoint s) || has_out (task_iface t)).
Qed.

Lemma closure_state_read_endpoint (t : Task) (s : State) :
  deviceToPcEndpoint (closure_state platform t s)
  = if completes platform (task_iface t)
    then bind_first "in" (deviceToPcEndpoint s) (endpoints (task_iface t))
    else deviceToPcEndpoint s.
Proof.
  unfold closure_state, completes.
  destruct (claim_error platform (task_iface t)); [reflexivity|].
  cbn. now destruct (is_set (endpoint s) || has_out (task_iface t)).
Qed.

Lemma platform_not_win32 : platform <> "win32" -> String.eqb platform "win32" = false.
Proof. intros H. now apply String.eqb_neq. Qed.

End ClosureFacts.

(** * Properties of one closure *)

(** X1. Whatever the host does to it (a throwing kernel-driver query, a
    throwing claim, a device slot emptied in the meantime), the closure
    handed to [setAltSetting] returns normally: nothing escapes to the
    host's event loop. *)
Theorem iface_callback_never_throws (platform : string) (t : Task) (s : State) :
  fst (iface_callback platform t s) = Normal tt.
Proof. now rewrite iface_callback_exact. Qed.

(** X2. On win32 the closure makes exactly one host call, [claim()]: the
    kernel driver is neither queried nor detached, whatever the interface
    would have answered. *)
Theorem win32_closure_only_claims (t : Task) (s : State) :
  host_calls (trace (snd (iface_callback "win32" t s)))
  = host_calls (trace s) ++ [Claim (interfaceNumber (task_iface t))].
Proof.
  rewrite iface_callback_exact. cbn [snd].
  rewrite closure_state_trace, host_calls_app. f_equal.
  unfold closure_trace, kernel_driver_trace, kernel_query_error. cbn.
  destruct (claim (task_iface t)); f_equal;
    [apply host_calls_invoke_trace|apply host_calls_report_trace].
Qed.

(** X3. Off win32, when the kernel driver is active and detaching it
    throws, the error is written to the console and goes no further: the
    interface is still claimed, and the callback calls, events, endpoint
    slots and counter are those of a detach that succeeded. *)
Theorem kernel_detach_failure_is_only_logged
    (platform : string) (t : Task) (s : State) (e : Error) :
  platform <> "win32" ->
  isKernelDriverActive (task_iface t) = Normal true ->
  detachKernelDriver (task_iface t) = Some e ->
  let n := interfaceNumber (task_iface t) in
  let s1 := snd (iface_callback platform t s) in
  let s0 := snd (iface_callback platform
                   (with_iface (with_detachKernelDriver None (task_iface t)) t) s) in
  (exists rest,
     trace s1 = trace s ++ [Host (IsKernelDriverActive n); Host (DetachKernelDriver n);
                            ConsoleError e; Host (Claim n)] ++ rest) /\
  callback_calls (trace s1) = callback_calls (trace s0) /\
  events (trace s1) = events (trace s0) /\
  host_calls (trace s1) = host_calls (trace s0) /\
  endpoint s1 = endpoint s0 /\
  deviceToPcEndpoint s1 = deviceToPcEndpoint s0 /\
  counters s1 = counters s0.
Proof.
  intros Hp Ha Hd n s1 s0. unfold s1, s0, n. clear s1 s0 n.
  rewrite !iface_callback_exact. cbn [snd].
  rewrite !closure_state_trace.
  unfold closure_state, closure_trace, claim_error, kernel_query_error,
    kernel_driver_trace, counter_of, has_out.
  cbn [task_iface task_callback task_counter with_iface with_detachKernelDriver
       isKernelDriverActive detachKernelDriver claim endpoints interfaceNumber].
  rewrite (platform_not_win32 platform Hp), Ha, Hd.
  destruct (claim (task_iface t)) as [e'|].
  - split; [eexists; cbn [app]; reflexivity|].
    rewrite !callback_calls_app, !events_app, !host_calls_app. cbn.
    split_and!; reflexivity.
  - split; [eexists; cbn [app]; reflexivity|].
    rewrite !callback_calls_app, !events_app, !host_calls_app. cbn.
    destruct (is_set (endpoint s) || _); cbn; split_and!; reflexivity.
Qed.

(** X4. Off win32, when the kernel-driver query itself throws, the
    interface is not claimed: the query is the closure's only host call,
    the callback is passed that error, and no slot or counter changes. *)
Theorem kernel_query_failure_skips_claim
    (platform : string) (t : Task) (s : State) (e : Error) :
  platform <> "win32" ->
  isKernelDriverActive (task_iface t) = Throw e ->
  let s1 := snd (iface_callback platform t s) in
  host_calls (trace s1)
  = host_calls (trace s) ++ [IsKernelDriverActive (interfaceNumber (task_iface t))] /\
  callback_calls (trace s1) = callback_calls (trace s) ++ calls (task_callback t) (Some e) /\
  events (trace s1) = events (trace s) /\
  endpoint s1 = endpoint s /\
  deviceToPcEndpoint s1 = deviceToPcEndpoint s /\
  counters s1 = counters s.
Proof.
  intros Hp Ha s1. unfold s1. clear s1.
  rewrite iface_callback_exact. cbn [snd].
  unfold closure_state, closure_trace, claim_error, kernel_query_error, kernel_driver_trace.
  rewrite (platform_not_win32 platform Hp), Ha. cbn [trace set_trace].
  rewrite !callback_calls_app, !events_app, !host_calls_app.
  rewrite host_calls_invoke_trace, callback_calls_invoke_trace, events_invoke_trace.
  cbn. rewrite !app_nil_r. split_and!; reflexivity.
Qed.

(** X5. A closure that runs after the device slot was emptied by a detach,
    with no write endpoint bound yet, on an interface that is claimed: if
    the interface has an "out" endpoint it is bound all the same and
    "connect" is emitted carrying [null]; if not, the counter is
    incremented and the callback is passed the TypeError of reading
    [interfaces] off [null]. *)
Theorem closure_on_detached_adapter (platform : string) (t : Task) (s : State) :
  device s = VNull -> endpoint s = None ->
  claim_error platform (task_iface t) = None ->
  let s1 := snd (iface_callback platform t s) in
  if has_out (task_iface t) then
    endpoint s1 = List.find (is_direction "out") (endpoints (task_iface t)) /\
    events (trace s1) = events (trace s) ++ [("connect", ArgValue VNull)] /\
    callback_calls (trace s1) = callback_calls (trace s) ++ calls (task_callback t) None
  else
    endpoint s1 = None /\
    events (trace s1) = events (trace s) /\
    callback_calls (trace s1)
    = callback_calls (trace s)
      ++ calls (task_callback t) (Some (null_property_error "interfaces")) /\
    counter_of s1 t = S (counter_of s t).
Proof.
  intros Hd He Hc s1. unfold s1. clear s1.
  destruct (iface_callback_completes platform t s Hc) as (tr & H). cbv zeta in H.
  rewrite He in H. cbn [is_set orb] in H.
  destruct (has_out (task_iface t)) eqn:Ho.
  - destruct H as (-> & Hcalls & Hev). cbn.
    rewrite callback_calls_app, events_app, Hcalls, Hev, Hd.
    split_and!; reflexivity.
  - destruct H as (-> & Hcalls & Hev). cbn [snd endpoint trace set_trace set_counters
      set_deviceToPcEndpoint set_endpoint].
    rewrite callback_calls_app, events_app, Hcalls, Hev, Hd, app_nil_r.
    split_and!; try reflexivity.
    + apply is_set_false. now rewrite is_set_bind_first_out, Ho.
    + unfold counter_of. cbn. now rewrite lookup_insert_eq.
Qed.

(** * Properties of a run of closures *)

Lemma find_direction (dir : string) (eps : list Endpoint) (ep : Endpoint) :
  List.find (is_direction dir) eps = Some ep -> In ep eps /\ direction ep = dir.
Proof.
  intros H. apply find_some in H as [Hin Hd]. split; [exact Hin|].
  now apply String.eqb_eq.
Qed.

Section RunFacts.

Variable platform : string.

Lemma run_state_cons (t : Task) (tasks : list Task) (s : State) :
  run_state platform (t :: tasks) s
  = run_state platform tasks (closure_state platform t s).
Proof. reflexivity. Qed.

Lemma run_state_app (l1 l2 : list Task) (s : State) :
  run_state platform (l1 ++ l2) s = run_state platform l2 (run_state platform l1 s).
Proof. apply fold_left_app. Qed.

Lemma run_state_keeps_endpoint (tasks : list Task) (s : State) (ep : Endpoint) :
  endpoint s = Some ep -> endpoint (run_state platform tasks s) = Some ep.
Proof.
  revert s. induction tasks as [|t tasks IH]; intros s He; [exact He|].
  rewrite run_state_cons. apply IH. rewrite closure_state_endpoint, He.
  now destruct (completes platform (task_iface t)).
Qed.

Lemma run_state_keeps_read_endpoint (tasks : list Task) (s : State) (ep : Endpoint) :
  deviceToPcEndpoint s = Some ep ->
  deviceToPcEndpoint (run_state platform tasks s) = Some ep.
Proof.
  revert s. induction tasks as [|t tasks IH]; intros s He; [exact He|].
  rewrite run_state_cons. apply IH. rewrite closure_state_read_endpoint, He.
  now destruct (completes platform (task_iface t)).
Qed.

Lemma run_state_stays_unbound (tasks : list Task) (s : State) :
  endpoint s = None ->
  Forall (fun j => completes platform j && has_out j = false) (map task_iface tasks) ->
  endpoint (run_state platform tasks s) = None.
Proof.
  revert s. induction tasks as [|t tasks IH]; intros s He Hall; [exact He|].
  inversion Hall as [|? ? Ht Hrest]; subst.
  rewrite run_state_cons. apply IH; [|exact Hrest].
  rewrite closure_state_endpoint, He.
  destruct (completes platform (task_iface t)); [|reflexivity].
  cbn in Ht. apply is_set_false. now rewrite is_set_bind_first_out, Ht.
Qed.

Lemma run_state_directions (tasks : list Task) (s : State) :
  slot_direction "out" (endpoint s) -> slot_direction "in" (deviceToPcEndpoint s) ->
  slot_direction "out" (endpoint (run_state platform tasks s)) /\
  slot_direction "in" (deviceToPcEndpoint (run_state platform tasks s)).
Proof.
  revert s. induction tasks as [|t tasks IH]; intros s Hw Hr; [now split|].
  rewrite run_state_cons. apply IH.
  - rewrite closure_state_endpoint.
    destruct (completes platform (task_iface t)); [|exact Hw].
    destruct (endpoint s) as [w|] eqn:He; [exact Hw|].
    intros ep Hep. cbn in Hep. now apply find_direction in Hep.
  - rewrite closure_state_read_endpoint.
    destruct (completes platform (task_iface t)); [|exact Hr].
    destruct (deviceToPcEndpoint s) as [r|] eqn:He; [exact Hr|].
    intros ep Hep. cbn in Hep. now apply find_direction in Hep.
Qed.

Lemma closure_state_bound (t : Task) (s : State) :
  is_set (endpoint s) = true ->
  callback_calls (trace (closure_state platform t s))
  = callback_calls (trace s) ++ bound_calls platform t /\
  counters (closure_state platform t s) = counters s /\
  endpoint (closure_state platform t s) = endpoint s.
Proof.
  intros Hb. unfold bound_calls.
  assert (closure_state platform t s = snd (iface_callback platform t s)) as ->
    by now rewrite iface_callback_exact.
  destruct (claim_error platform (task_iface t)) as [e|] eqn:Hc.
  - destruct (iface_callback_fails platform t s e Hc) as (tr & -> & Hcalls & _).
    cbn. now rewrite callback_calls_app, Hcalls.
  - destruct (iface_callback_completes platform t s Hc) as (tr & H). cbv zeta in H.
    rewrite Hb in H. cbn [orb] in H. destruct H as (-> & Hcalls & _).
    cbn. rewrite callback_calls_app, Hcalls.
    destruct (endpoint s); [auto|discriminate].
Qed.

Lemma run_state_bound (tasks : list Task) (s : State) :
  is_set (endpoint s) = true ->
  callback_calls (trace (run_state platform tasks s))
  = callback_calls (trace s) ++ flat_map (bound_calls platform) tasks /\
  counters (run_state platform tasks s) = counters s /\
  endpoint (run_state platform tasks s) = endpoint s.
Proof.
  revert s. induction tasks as [|t tasks IH]; intros s Hb.
  - cbn. now rewrite app_nil_r.
  - rewrite run_state_cons.
    destruct (closure_state_bound t s Hb) as (Hc & Hk & He).
    destruct (IH (closure_state platform t s)) as (Hc' & Hk' & He');
      [now rewrite He|].
    rewrite Hc', Hk', He', Hc, Hk, He. cbn [flat_map].
    now rewrite <- app_assoc.
Qed.

(** While the counter cannot reach [n], only claim errors are passed on. *)
Lemma unbound_calls_short (n : nat) (cb : option nat) (c : nat) (ifaces : list Interface) :
  c + length (List.filter (completes platform) ifaces) < n ->
  unbound_calls platform n cb c ifaces
  = flat_map (fun i => match claim_error platform i with
                       | Some e => calls cb (Some e)
                       | None => []
                       end) ifaces.
Proof.
  revert c. induction ifaces as [|i ifaces IH]; intros c Hlt; [reflexivity|].
  cbn [unbound_calls flat_map]. cbn [List.filter] in Hlt. unfold completes in Hlt at 1.
  destruct (claim_error platform i) as [e|]; cbn [is_set negb length] in Hlt.
  - now rewrite IH.
  - destruct (Nat.eqb_spec (S c) n); [lia|]. rewrite IH by lia. reflexivity.
Qed.

Lemma filter_length_lt {A} (f : A -> bool) (l : list A) :
  Exists (fun x => f x = false) l -> length (List.filter f l) < length l.
Proof.
  induction 1 as [x l Hx|x l _ IH]; cbn.
  - rewrite Hx. pose proof (List.filter_length_le f l). lia.
  - destruct (f x); cbn; lia.
Qed.

End RunFacts.

(** X6. The first "out" endpoint found wins: started with the write slot
    unbound, a run binds the first "out" endpoint of the first interface,
    in callback order, that is claimed and has one; no later closure
    changes it. *)
Theorem first_out_endpoint_wins
    (platform : string) (sched : list Task) (s : State)
    (before after : list Interface) (i : Interface) :
  endpoint s = None ->
  map task_iface sched = before ++ i :: after ->
  Forall (fun j => completes platform j && has_out j = false) before ->
  completes platform i = true -> has_out i = true ->
  exists ep,
    List.find (is_direction "out") (endpoints i) = Some ep /\
    endpoint (snd (run_callbacks platform sched s)) = Some ep.
Proof.
  intros He Hs Hb Hc Ho.
  rewrite run_callbacks_exact. cbn [snd].
  apply map_eq_app in Hs as (sb & rest & -> & Hsb & Hrest).
  apply map_eq_cons in Hrest as (t & sa & -> & Ht & Hsa).
  subst before i.
  destruct (List.find (is_direction "out") (endpoints (task_iface t))) as [ep|] eqn:Hf.
  - exists ep. split; [reflexivity|].
    rewrite run_state_app, run_state_cons.
    apply run_state_keeps_endpoint.
    rewrite closure_state_endpoint, Hc.
    now rewrite (run_state_stays_unbound platform sb s He Hb).
  - unfold has_out in Ho. apply existsb_exists in Ho as (ep & Hin & Hd).
    now rewrite (find_none _ _ Hf ep Hin) in Hd.
Qed.

(** X7. Both endpoint slots are single-assignment: whatever closures run,
    a slot that is bound keeps the endpoint it holds. *)
Theorem bound_slots_are_never_rebound
    (platform : string) (tasks : list Task) (s : State) :
  let s' := snd (run_callbacks platform tasks s) in
  (forall ep, endpoint s = Some ep -> endpoint s' = Some ep) /\
  (forall ep, deviceToPcEndpoint s = Some ep -> deviceToPcEndpoint s' = Some ep).
Proof.
  cbv zeta. rewrite run_callbacks_exact. cbn [snd]. split; intros ep H.
  - now apply run_state_keeps_endpoint.
  - now apply run_state_keeps_read_endpoint.
Qed.

(** X8. A run keeps the slots sorted by direction: if the write slot holds
    nothing but an "out" endpoint and the read slot nothing but an "in"
    endpoint before, so it is after. *)
Theorem slots_keep_their_direction
    (platform : string) (tasks : list Task) (s : State) :
  slot_direction "out" (endpoint s) ->
  slot_direction "in" (deviceToPcEndpoint s) ->
  slot_direction "out" (endpoint (snd (run_callbacks platform tasks s))) /\
  slot_direction "in" (deviceToPcEndpoint (snd (run_callbacks platform tasks s))).
Proof.
  intros Hw Hr. rewrite run_callbacks_exact. cbn [snd].
  now apply run_state_directions.
Qed.

(** X9. On an adapter whose write slot is already bound (a second [open],
    say), every closure calls back exactly once: with [null] when its
    interface is claimed, with the error when not.  [EndpointNotFound] is
    never reported, no counter moves and the bound endpoint stays. *)
Theorem bound_adapter_calls_back_once_per_interface
    (platform : string) (tasks : list Task) (s : State) :
  is_set (endpoint s) = true ->
  let s' := snd (run_callbacks platform tasks s) in
  callback_calls (trace s')
  = callback_calls (trace s) ++ flat_map (bound_calls platform) tasks /\
  counters s' = counters s /\
  endpoint s' = endpoint s.
Proof.
  intros Hb. cbv zeta. rewrite run_callbacks_exact. cbn [snd].
  now apply run_state_bound.
Qed.

(** X10. The counter counts claimed interfaces only.  On a device without
    any "out" endpoint, if at least one interface cannot be claimed, then
    once every closure has run the callback has been passed the claim
    errors, in callback order, and nothing else: [EndpointNotFound] is
    not reported. *)
Theorem claim_failure_suppresses_not_found
    (platform : string) (cb : option nat) (s s1 : State) (d : Device)
    (tasks sched : list Task) :
  device s = VDevice d -> endpoint s = None ->
  (forall i ep, In i (interfaces d) -> In ep (endpoints i) -> direction ep <> "out") ->
  Exists (fun i => completes platform i = false) (interfaces d) ->
  open cb s = (Normal tasks, s1) ->
  Permutation sched tasks ->
  callback_calls (trace (snd (run_callbacks platform sched s1)))
  = callback_calls (trace s)
    ++ flat_map (fun t => match claim_error platform (task_iface t) with
                          | Some e => calls cb (Some e)
                          | None => []
                          end) sched.
Proof.
  intros Hd He Hno Hex Ho Hp.
  destruct (open_returns cb s s1 tasks Ho)
    as (d' & k & Hd' & _ & Ht & Hd1 & He1 & Hk & _ & Hcalls).
  rewrite Hd in Hd'. injection Hd' as <-.
  assert (Forall (fun t => task_counter t = k /\ task_callback t = cb /\
                           has_out (task_iface t) = false) tasks) as Hall.
  { subst tasks. apply List.Forall_forall. intros t Hin.
    apply in_map_iff in Hin as (i & <- & Hi). cbn. split_and!; try reflexivity.
    unfold has_out. apply Bool.not_true_is_false. intros H.
    apply existsb_exists in H as (ep & Hep & Hdir).
    apply String.eqb_eq in Hdir. exact (Hno i ep Hi Hep Hdir). }
  assert (Hall' := Permutation_Forall (Permutation_sym Hp) Hall).
  assert (Permutation (map task_iface sched) (interfaces d)) as Hpi.
  { rewrite (Permutation_map task_iface Hp), Ht, map_map. cbn. now rewrite map_id. }
  destruct (run_callbacks_unbound platform d k cb sched s1)
    as (s2 & -> & _ & _ & Hcs); [congruence|congruence|exact Hall'|].
  cbn [snd]. rewrite Hcs, Hcalls, Hk. cbn [default from_option]. change (id 0) with 0.
  f_equal. rewrite unbound_calls_short.
  - rewrite flat_map_concat_map, map_map, <- flat_map_concat_map. reflexivity.
  - cbn [Nat.add]. rewrite <- (Permutation_length Hpi).
    apply filter_length_lt.
    apply List.Exists_exists in Hex as (i & Hi & Hfalse).
    apply List.Exists_exists. exists i. split; [|exact Hfalse].
    apply (Permutation_in _ (Permutation_sym Hpi)). exact Hi.
Qed.

(** X11. A device with a single interface that is claimed and has an "out"
    endpoint: [open], then its closure, emits "connect" exactly once,
    calls back exactly once, with [null], and binds the interface's first
    "out" endpoint for writing and its first "in" endpoint, if any, for
    reading. *)
Theorem single_interface_open
    (platform : string) (cb : option nat) (s s1 : State) (d : Device)
    (i : Interface) (tasks : list Task) :
  device s = VDevice d -> interfaces d = [i] ->
  endpoint s = None -> deviceToPcEndpoint s = None ->
  completes platform i = true -> has_out i = true ->
  open cb s = (Normal tasks, s1) ->
  let s2 := snd (run_callbacks platform tasks s1) in
  connects (trace s2) = connects (trace s) + 1 /\
  callback_calls (trace s2) = callback_calls (trace s) ++ calls cb None /\
  endpoint s2 = List.find (is_direction "out") (endpoints i) /\
  deviceToPcEndpoint s2 = List.find (is_direction "in") (endpoints i).
Proof.
  intros Hd Hi He Hr Hc Hout Ho. cbv zeta.
  unfold open in Ho. rewrite bind_run in Ho. unfold new_counter in Ho.
  cbv beta iota zeta in Ho. set (k := fresh (dom (counters s))) in Ho.
  set (s0 := set_counters _ s) in Ho.
  rewrite bind_run in Ho. unfold this_device_open in Ho. rewrite bind_run in Ho.
  unfold get at 1 in Ho. cbv beta iota in Ho.
  change (device s0) with (device s) in Ho. rewrite Hd, host_run in Ho.
  destruct (device_open d) as [e|]; [discriminate|].
  rewrite bind_run in Ho. unfold this_device_interfaces in Ho. rewrite bind_run in Ho.
  unfold get at 1 in Ho. cbv beta iota in Ho.
  match type of Ho with context [device ?st] =>
    change (device st) with (device s) in Ho end.
  rewrite Hd in Ho. unfold mret at 1, M_ret in Ho. rewrite schedule_run, Hi in Ho.
  injection Ho as <- <-.
  rewrite run_callbacks_exact. cbn [snd map run_state fold_left].
  unfold completes in Hc.
  destruct (claim_error platform i) as [e|] eqn:Hce; [discriminate|].
  match goal with |- context [closure_state platform ?t ?st] =>
    pose proof (iface_callback_completes platform t st Hce) as (tr & H);
    rewrite iface_callback_exact in H end.
  cbv zeta in H. cbn [task_iface task_callback] in H.
  rewrite Hout, Bool.orb_true_r in H. destruct H as (H & Hcalls & Hev).
  injection H as ->.
  cbn [trace endpoint deviceToPcEndpoint set_trace set_counters
       set_deviceToPcEndpoint set_endpoint].
  rewrite He, Hr. cbn [bind_first].
  rewrite !connects_app, !callback_calls_app, Hcalls, (connects_events tr _ Hev).
  cbn. rewrite !app_nil_r. split_and!; try reflexivity. lia.
Qed.

(** * Properties of the constructor and of getDevice *)

Lemma findByIds_first (before after : list Device) (d : Device) (vid pid : Z) :
  Forall (fun x => ~ ids_match vid pid x) before ->
  ids_match vid pid d ->
  findByIds (before ++ d :: after) (VNumber vid) (VNumber pid) = Some d.
Proof.
  intros Hb [Hv Hp]. unfold findByIds.
  induction Hb as [|x before Hx _ IH]; cbn.
  - now rewrite Hv, Hp, !Z.eqb_refl.
  - destruct (Z.eqb_spec (idVendor x) vid), (Z.eqb_spec (idProduct x) pid);
      cbn; try exact IH.
    exfalso. apply Hx. now split.
Qed.

(** X12. With two non-zero ids that no attached device carries,
    construction throws "Can not find printer": no adapter comes to
    exist, and no listener is registered. *)
Theorem constructor_ids_without_match_throws
    (attached : list Device) (vid pid : Z) :
  vid <> 0%Z -> pid <> 0%Z ->
  (forall d, In d attached -> ~ ids_match vid pid d) ->
  constructor attached (VNumber vid) (VNumber pid) = Throw (Err "Can not find printer").
Proof.
  intros Hv Hp Hno. unfold constructor. cbn [truthy].
  destruct (Z.eqb_spec vid 0); [contradiction|].
  destruct (Z.eqb_spec pid 0); [contradiction|]. cbn.
  now rewrite (findByIds_None attached vid pid Hno).
Qed.

(** X13. With two non-zero ids, construction selects the first attached
    device, in enumeration order, that carries both; the adapter starts
    with no endpoint bound and one "detach" listener registered. *)
Theorem constructor_ids_select_first_match
    (before after : list Device) (d : Device) (vid pid : Z) :
  vid <> 0%Z -> pid <> 0%Z ->
  Forall (fun x => ~ ids_match vid pid x) before ->
  ids_match vid pid d ->
  constructor (before ++ d :: after) (VNumber vid) (VNumber pid)
  = Normal (fresh_adapter (VDevice d)).
Proof.
  intros Hv Hp Hb Hd. unfold constructor. cbn [truthy].
  destruct (Z.eqb_spec vid 0); [contradiction|].
  destruct (Z.eqb_spec pid 0); [contradiction|]. cbn.
  now rewrite (findByIds_first before after d vid pid Hb Hd).
Qed.

(** X14. A vendor id given alone, or with a product id of zero, is not
    looked up: the number itself lands in the device slot, whatever is
    attached, and construction succeeds.  [open] on that adapter throws a
    TypeError synchronously, before any host call. *)
Theorem constructor_lone_vendor_id_is_kept
    (attached : list Device) (vid : Z) (pid : Value) (cb : option nat) :
  vid <> 0%Z -> truthy pid = false ->
  constructor attached (VNumber vid) pid = Normal (fresh_adapter (VNumber vid)) /\
  fst (open cb (fresh_adapter (VNumber vid)))
  = Throw (not_a_function_error "this.device.open") /\
  trace (snd (open cb (fresh_adapter (VNumber vid))))
  = trace (fresh_adapter (VNumber vid)).
Proof.
  intros Hv Hp. apply Z.eqb_neq in Hv.
  unfold constructor. cbn [truthy]. rewrite Hp, Hv. cbn. rewrite Hv. cbn.
  split_and!; reflexivity.
Qed.

(** X15. Every adapter the constructor returns holds a truthy device
    value, has neither endpoint bound, has exactly one "detach" listener
    registered, no transfer pending, and has done nothing observable but
    register that listener. *)
Theorem constructor_result_is_fresh
    (attached : list Device) (vid pid : Value) (s : State) :
  constructor attached vid pid = Normal s ->
  truthy (device s) = true /\ s = fresh_adapter (device s).
Proof.
  unfold constructor. intros H.
  destruct (truthy vid && truthy pid).
  - cbn in H. destruct (truthy (value_of_option _)) eqn:Ht; cbn in H; [|discriminate].
    injection H as <-. now split.
  - destruct (truthy vid) eqn:Hv; cbn in H.
    + rewrite Hv in H. cbn in H. injection H as <-. now split.
    + rewrite findPrinter_filter in H. cbn in H.
      destruct (List.filter exposes_printerb attached); cbn in H; [discriminate|].
      injection H as <-. now split.
Qed.

(** X16. When some attached device carries both ids, [getDevice] calls
    [open()] on the first such device, once, and on no other; the promise
    resolves with that device if the call returns and is rejected with
    the error if it throws. *)
Theorem getDevice_opens_first_match
    (before after : list Device) (d : Device) (vid pid : Z) :
  Forall (fun x => ~ ids_match vid pid x) before ->
  ids_match vid pid d ->
  getDevice (before ++ d :: after) vid pid
  = ([DeviceOpen (dev_id d)],
     match device_open d with
     | None => Resolved (Some d)
     | Some e => Rejected e
     end).
Proof.
  intros Hb Hd. unfold getDevice.
  rewrite (findByIds_first before after d vid pid Hb Hd).
  now destruct (device_open d).
Qed.

(** * Properties of open's synchronous part *)

(** X17. On a device the host can open, [open] opens it, then calls
    [setAltSetting] once per interface, in interface order and with the
    interface's own [altSetting], and hands over one closure per
    interface, all with the caller's callback and all sharing one counter
    that no earlier call of [open] uses and that starts at zero.  It
    returns without having called back, emitted or bound anything. *)
Theorem open_schedules_every_interface (cb : option nat) (s : State) (d : Device) :
  device s = VDevice d -> device_open d = None ->
  exists k,
    counters s !! k = None /\
    open cb s =
      (Normal (tasks_for k cb (interfaces d)),
       set_trace
         (trace s
          ++ Host (DeviceOpen (dev_id d))
             :: map (fun i => Host (SetAltSetting (interfaceNumber i) (altSetting i)))
                    (interfaces d))
         (set_counters (<[k := 0]> (counters s)) s)).
Proof.
  intros Hd Ho. exists (fresh (dom (counters s))). split.
  - apply not_elem_of_dom. apply is_fresh.
  - unfold open. rewrite bind_run. unfold new_counter. cbv beta iota zeta.
    set (k := fresh (dom (counters s))). set (s0 := set_counters _ s).
    rewrite bind_run. unfold this_device_open. rewrite bind_run.
    unfold get at 1. cbv beta iota.
    change (device s0) with (device s). rewrite Hd, host_run, Ho.
    rewrite bind_run. unfold this_device_interfaces. rewrite bind_run.
    unfold get at 1. cbv beta iota.
    match goal with |- context [device ?st] => change (device st) with (device s) end.
    rewrite Hd. unfold mret at 1, M_ret. rewrite schedule_run.
    unfold tasks_for, s0, set_trace. cbn. now rewrite <- app_assoc.
Qed.

(** * Properties of read, close and detach *)

(** X18. With no read endpoint bound, [read(callback)] throws a TypeError
    before anything is handed to the host: nothing is traced, nothing is
    pending, and the callback is not called then or later. *)
Theorem read_without_endpoint_throws (s : State) (cb : option nat) :
  deviceToPcEndpoint s = None ->
  read cb s = (Throw (undefined_property_error "transfer"), s).
Proof.
  intros He. unfold read. rewrite bind_run. unfold get. cbv beta iota.
  now rewrite He.
Qed.

(** X19. With a read endpoint bound, [read(cb)] submits one IN transfer of
    64 bytes on it; when the host completes that transfer, [cb] is called
    with whatever data came back, and the transfer's error, if any, is
    dropped: a failed read and an empty read look the same to [cb]. *)
Theorem read_passes_data_and_drops_error
    (s : State) (ep : Endpoint) (cb : nat)
    (error : option Error) (received : option Data) :
  deviceToPcEndpoint s = Some ep ->
  exists s1 s2,
    read (Some cb) s = (Normal tt, s1) /\
    trace s1 = trace s ++ [Host (TransferIn (address ep) 64)] /\
    transfers s1 = transfers s ++ [InTransfer ep 64 (Some cb)] /\
    transfer_done (length (transfers s)) error received s1 = (Normal tt, s2) /\
    trace s2 = trace s1 ++ [InvokeRead cb received] /\
    transfers s2 = transfers s.
Proof.
  intros He. destruct s as [dv e dp dl cs ts tr]; cbn in He; subst.
  unfold read. unfold_ops. run_m.
  eexists. eexists. split; [reflexivity|]. cbn.
  split; [reflexivity|]. split; [reflexivity|].
  unfold transfer_done. unfold_ops. run_m.
  rewrite list_lookup_middle by reflexivity. cbn.
  split; [reflexivity|]. cbn. split; [reflexivity|].
  rewrite delete_middle. apply app_nil_r.
Qed.

Lemma close_device_run (s : State) (d : Device) (cb : option nat) :
  device s = VDevice d ->
  close cb s =
    match device_close d with
    | None =>
        (Normal tt,
         set_trace (trace s ++ [Host (DeviceClose (dev_id d));
                                Host (UsbRemoveAllListeners "detach")]
                            ++ invoke_trace cb None
                            ++ [Emit "close" (ArgValue (VDevice d))])
                   (set_detachListeners 0 s))
    | Some e =>
        (Normal tt,
         set_trace (trace s ++ Host (DeviceClose (dev_id d))
                            :: invoke_trace cb (Some e)) s)
    end.
Proof.
  intros Hd. destruct s as [dv e dp dl cs ts tr]; cbn in Hd; subst.
  unfold close. unfold_ops. unfold host, log. run_m.
  destruct (device_close d) as [err|]; destruct cb as [f|]; cbn;
    unfold set_trace, set_detachListeners; cbn; rewrite <- ?app_assoc; reflexivity.
Qed.

(** X20. [close(cb)] on an adapter that holds a device the host can
    release: the device is released, every "detach" listener is removed,
    [cb(null)] is called, then "close" is emitted, in this order.  The
    device slot still holds the device afterwards, and both endpoint
    slots are as before. *)
Theorem close_releases_and_keeps_device (s : State) (d : Device) (cb : nat) :
  device s = VDevice d -> device_close d = None ->
  close (Some cb) s =
    (Normal tt,
     set_trace (trace s ++ [Host (DeviceClose (dev_id d));
                            Host (UsbRemoveAllListeners "detach");
                            Invoke cb None;
                            Emit "close" (ArgValue (VDevice d))])
               (set_detachListeners 0 s)) /\
  device (snd (close (Some cb) s)) = VDevice d /\
  endpoint (snd (close (Some cb) s)) = endpoint s /\
  deviceToPcEndpoint (snd (close (Some cb) s)) = deviceToPcEndpoint s.
Proof.
  intros Hd Hc. rewrite (close_device_run s d (Some cb) Hd), Hc. cbn.
  split_and!; try reflexivity. exact Hd.
Qed.

(** X21. When the host's [device.close()] throws, [close(cb)] passes the
    error to [cb] and stops there: no "close" is emitted, the "detach"
    listener stays registered, and the adapter is otherwise unchanged. *)
Theorem close_failure_reaches_callback (s : State) (d : Device) (cb : nat) (e : Error) :
  device s = VDevice d -> device_close d = Some e ->
  close (Some cb) s =
    (Normal tt,
     set_trace (trace s ++ [Host (DeviceClose (dev_id d)); Invoke cb (Some e)]) s).
Proof.
  intros Hd Hc. now rewrite (close_device_run s d (Some cb) Hd), Hc.
Qed.

(** X22. [close] never throws, whatever the device slot holds and whatever
    the host's [close()] does. *)
Theorem close_never_throws (s : State) (cb : option nat) :
  fst (close cb s) = Normal tt.
Proof.
  destruct (device s) as [| | b | z | d] eqn:Hd.
  5: { rewrite (close_device_run s d cb Hd). now destruct (device_close d). }
  all: destruct s as [dv e dp dl cs ts tr]; cbn in Hd; subst;
    unfold close; unfold_ops; run_m;
    try destruct b; try destruct (z =? 0)%Z; destruct cb; reflexivity.
Qed.

(** X23. After a [close] that succeeded, a "detach" notification, also one
    for the adapter's own device, changes nothing and emits nothing: the
    listener is gone. *)
Theorem detach_after_close_is_ignored (s : State) (d d' : Device) (cb : option nat) :
  device s = VDevice d -> device_close d = None ->
  usb_detach d' (snd (close cb s)) = (Normal tt, snd (close cb s)).
Proof.
  intros Hd Hc. rewrite (close_device_run s d cb Hd), Hc. reflexivity.
Qed.

(** X24. [close] does not empty the device slot, so a second [close] after
    a first that succeeded releases the device again, calls back with
    [null] again and emits "close" again. *)
Theorem close_twice_releases_twice (s : State) (d : Device) (cb1 cb2 : nat) :
  device s = VDevice d -> device_close d = None ->
  let s2 := snd ((close (Some cb1) ;; close (Some cb2)) s) in
  host_calls (trace s2)
  = host_calls (trace s)
    ++ [DeviceClose (dev_id d); UsbRemoveAllListeners "detach";
        DeviceClose (dev_id d); UsbRemoveAllListeners "detach"] /\
  callback_calls (trace s2) = callback_calls (trace s) ++ [(cb1, None); (cb2, None)] /\
  events (trace s2)
  = events (trace s) ++ [("close", ArgValue (VDevice d)); ("close", ArgValue (VDevice d))].
Proof.
  intros Hd Hc. cbv zeta. rewrite bind_run.
  rewrite (close_device_run s d (Some cb1) Hd), Hc.
  rewrite (close_device_run _ d (Some cb2)) by exact Hd. rewrite Hc.
  cbn [snd trace set_trace set_detachListeners invoke_trace].
  rewrite !callback_calls_app, !events_app, !host_calls_app. cbn.
  rewrite <- !app_assoc. split_and!; reflexivity.
Qed.

(** X25. A detach empties the device slot only: the endpoint slots stay
    bound, and a [write] after the detach still emits "data" and submits
    the transfer on the endpoint bound before. *)
Theorem write_after_detach_still_submits
    (s : State) (d : Device) (ep : Endpoint) (buf : Data) (cb : option nat) :
  device s = VDevice d -> detachListeners s <> 0 -> endpoint s = Some ep ->
  let s1 := snd (usb_detach d s) in
  device s1 = VNull /\ endpoint s1 = Some ep /\
  deviceToPcEndpoint s1 = deviceToPcEndpoint s /\
  fst (write buf cb s1) = Normal tt /\
  trace (snd (write buf cb s1))
  = trace s1 ++ [Emit "data" (ArgData buf); Host (TransferOut (address ep) buf)] /\
  transfers (snd (write buf cb s1)) = transfers s ++ [OutTransfer ep buf cb].
Proof.
  intros Hd Hn He. cbv zeta. rewrite (usb_detach_owned s d Hd Hn). cbn [snd].
  destruct s as [dv e dp dl cs ts tr]; cbn in Hd, He; subst.
  unfold write. unfold_ops. run_m. rewrite <- !app_assoc.
  split_and!; reflexivity.
Qed.

(** * The further properties on sample devices *)

(** A stuck kernel driver on Linux: the callback hears what it would have
    heard had the detach worked. *)
Lemma kernel_detach_failure_witness :
  callback_calls
    (trace (snd (iface_callback "linux"
                   (Scenario.closure (Scenario.iface_stuck 0 [Sample.ep_out]))
                   Run.read_only)))
  = [(0, None)].
Proof.
  destruct (kernel_detach_failure_is_only_logged
              "linux" (Scenario.closure (Scenario.iface_stuck 0 [Sample.ep_out]))
              Run.read_only (LibUSBError (-5))
              ltac:(discriminate) eq_refl eq_refl) as (_ & H & _).
  rewrite H. reflexivity.
Defined.

Lemma kernel_query_failure_witness :
  host_calls
    (trace (snd (iface_callback "linux"
                   (Scenario.closure (Scenario.iface_gone 0 [Sample.ep_out]))
                   Run.read_only)))
  = [UsbOn "detach"; IsKernelDriverActive 0].
Proof.
  destruct (kernel_query_failure_skips_claim
              "linux" (Scenario.closure (Scenario.iface_gone 0 [Sample.ep_out]))
              Run.read_only (LibUSBError (-4))
              ltac:(discriminate) eq_refl) as (H & _).
  exact H.
Defined.

(** The closure of an interface with an "out" endpoint, run after the
    device was unplugged. *)
Lemma closure_on_detached_adapter_witness :
  endpoint (snd (iface_callback "linux"
                   (Scenario.closure (Sample.iface_free 0 [Sample.ep_out]))
                   Run.detached))
  = Some Sample.ep_out.
Proof.
  destruct (closure_on_detached_adapter
              "linux" (Scenario.closure (Sample.iface_free 0 [Sample.ep_out]))
              Run.detached eq_refl eq_refl eq_refl) as (H & _).
  exact H.
Defined.

Lemma first_out_endpoint_wins_witness :
  exists ep,
    List.find (is_direction "out") [Sample.ep_out; Sample.ep_in] = Some ep /\
    endpoint (snd (run_callbacks "linux" (Run.scheduled (Some 0) Run.two_free)
                                 (Run.after (open (Some 0)) Run.two_free)))
    = Some ep.
Proof.
  apply (first_out_endpoint_wins
           "linux" (Run.scheduled (Some 0) Run.two_free)
           (Run.after (open (Some 0)) Run.two_free)
           [] [Sample.iface_free 1 [Sample.ep_in]]
           (Sample.iface_free 0 [Sample.ep_out; Sample.ep_in]));
    try reflexivity.
  constructor.
Defined.

Lemma slots_keep_their_direction_witness :
  slot_direction "out"
    (endpoint (snd (run_callbacks "linux" (Run.scheduled (Some 0) Run.two_free)
                                  Run.two_free))) /\
  slot_direction "in"
    (deviceToPcEndpoint (snd (run_callbacks "linux" (Run.scheduled (Some 0) Run.two_free)
                                            Run.two_free))).
Proof.
  apply (slots_keep_their_direction
           "linux" (Run.scheduled (Some 0) Run.two_free) Run.two_free);
    intros ep H; discriminate H.
Defined.

(** The busy interface's closure on the adapter interface 0 has opened. *)
Lemma bound_adapter_calls_back_witness :
  callback_calls (trace (snd (run_callbacks "linux" [Run.busy_closure] Run.bound)))
  = callback_calls (trace Run.bound) ++ [(0, Some (LibUSBError (-3)))].
Proof.
  destruct (bound_adapter_calls_back_once_per_interface
              "linux" [Run.busy_closure] Run.bound eq_refl) as (H & _).
  exact H.
Defined.

(** Two interfaces without an "out" endpoint, one of them busy: the
    callback hears of the busy one only. *)
Lemma claim_failure_suppresses_not_found_witness :
  callback_calls
    (trace (snd (run_callbacks
                   "linux"
                   (Run.scheduled (Some 0) (fresh_adapter (VDevice Scenario.in_only_then_busy)))
                   (Run.after (open (Some 0))
                              (fresh_adapter (VDevice Scenario.in_only_then_busy))))))
  = [(0, Some (LibUSBError (-3)))].
Proof.
  rewrite (claim_failure_suppresses_not_found
             "linux" (Some 0)
             (fresh_adapter (VDevice Scenario.in_only_then_busy))
             (Run.after (open (Some 0))
                        (fresh_adapter (VDevice Scenario.in_only_then_busy)))
             Scenario.in_only_then_busy
             (Run.scheduled (Some 0) (fresh_adapter (VDevice Scenario.in_only_then_busy)))
             (Run.scheduled (Some 0) (fresh_adapter (VDevice Scenario.in_only_then_busy)))).
  - reflexivity.
  - reflexivity.
  - reflexivity.
  - intros i ep [<-|[<-|[]]] Hin; cbn in Hin.
    + destruct Hin as [<-|[]]. discriminate.
    + destruct Hin.
  - apply Exists_cons_tl. apply Exists_cons_hd. reflexivity.
  - reflexivity.
  - apply Permutation_refl.
Defined.

Lemma single_interface_open_witness :
  connects (trace (snd (run_callbacks
                          "linux"
                          (Run.scheduled (Some 0) (fresh_adapter (VDevice Scenario.one_interface)))
                          (Run.after (open (Some 0))
                                     (fresh_adapter (VDevice Scenario.one_interface))))))
  = 1.
Proof.
  destruct (single_interface_open
              "linux" (Some 0)
              (fresh_adapter (VDevice Scenario.one_interface))
              (Run.after (open (Some 0)) (fresh_adapter (VDevice Scenario.one_interface)))
              Scenario.one_interface
              (Sample.iface_free 0 [Sample.ep_out; Sample.ep_in])
              (Run.scheduled (Some 0) (fresh_adapter (VDevice Scenario.one_interface)))
              eq_refl eq_refl eq_refl eq_refl eq_refl eq_refl eq_refl) as (H & _).
  exact H.
Defined.

Lemma constructor_ids_without_match_witness :
  constructor [Sample.unreadable] (VNumber 0x04b8) (VNumber 0x0202)
  = Throw (Err "Can not find printer").
Proof.
  apply constructor_ids_without_match_throws; try discriminate.
  intros d [<-|[]] [Hv _]. discriminate Hv.
Defined.

Lemma constructor_ids_select_first_match_witness :
  constructor ([Sample.unreadable] ++ Sample.locked :: [Sample.read_only])
              (VNumber 0x04b8) (VNumber 0x0e15)
  = Normal (fresh_adapter (VDevice Sample.locked)).
Proof.
  apply constructor_ids_select_first_match; try discriminate.
  - constructor; [|constructor]. intros [Hv _]. discriminate Hv.
  - split; reflexivity.
Defined.

Lemma constructor_lone_vendor_id_witness :
  constructor [] (VNumber 0x04b8) VUndefined = Normal (fresh_adapter (VNumber 0x04b8)) /\
  fst (open None (fresh_adapter (VNumber 0x04b8)))
  = Throw (not_a_function_error "this.device.open") /\
  trace (snd (open None (fresh_adapter (VNumber 0x04b8))))
  = trace (fresh_adapter (VNumber 0x04b8)).
Proof.
  apply constructor_lone_vendor_id_is_kept; [discriminate|reflexivity].
Defined.

Lemma constructor_result_is_fresh_witness :
  truthy (device Run.read_only) = true /\
  Run.read_only = fresh_adapter (device Run.read_only).
Proof.
  apply (constructor_result_is_fresh
           [Sample.unreadable; Sample.read_only] VUndefined VUndefined).
  reflexivity.
Defined.

Lemma getDevice_opens_first_match_witness :
  getDevice ([Sample.unreadable] ++ Sample.locked :: [Sample.read_only]) 0x04b8 0x0e15
  = ([DeviceOpen 9], Rejected (LibUSBError (-3))).
Proof.
  apply (getDevice_opens_first_match [Sample.unreadable] [Sample.read_only] Sample.locked).
  - constructor; [|constructor]. intros [Hv _]. discriminate Hv.
  - split; reflexivity.
Defined.

Lemma open_schedules_every_interface_witness :
  exists k,
    counters Run.read_only !! k = None /\
    open (Some 0) Run.read_only =
      (Normal (tasks_for k (Some 0) [Sample.iface_free 0 [Sample.ep_in]]),
       set_trace (trace Run.read_only ++ [Host (DeviceOpen 7); Host (SetAltSetting 0 0)])
                 (set_counters (<[k := 0]> (counters Run.read_only)) Run.read_only)).
Proof.
  apply (open_schedules_every_interface (Some 0) Run.read_only Sample.read_only);
    reflexivity.
Defined.

Lemma read_without_endpoint_witness :
  read (Some 4) Run.read_only
  = (Throw (undefined_property_error "transfer"), Run.read_only).
Proof. apply read_without_endpoint_throws. reflexivity. Defined.

(** A read whose transfer fails: the callback is called without data and
    without the error. *)
Lemma read_passes_data_witness :
  exists s1 s2,
    read (Some 4) Run.bound = (Normal tt, s1) /\
    trace s1 = trace Run.bound ++ [Host (TransferIn 129 64)] /\
    transfers s1 = transfers Run.bound ++ [InTransfer Sample.ep_in 64 (Some 4)] /\
    transfer_done (length (transfers Run.bound)) (Some (LibUSBError (-7))) None s1
    = (Normal tt, s2) /\
    trace s2 = trace s1 ++ [InvokeRead 4 None] /\
    transfers s2 = transfers Run.bound.
Proof.
  apply (read_passes_data_and_drops_error
           Run.bound Sample.ep_in 4 (Some (LibUSBError (-7))) None).
  reflexivity.
Defined.

Lemma close_releases_witness :
  device (snd (close (Some 1) Run.bound)) = VDevice Sample.free_then_busy /\
  endpoint (snd (close (Some 1) Run.bound)) = Some Sample.ep_out.
Proof.
  destruct (close_releases_and_keeps_device
              Run.bound Sample.free_then_busy 1 eq_refl eq_refl) as (_ & Hd & He & _).
  split; [exact Hd|]. rewrite He. reflexivity.
Defined.

Lemma close_failure_witness :
  close (Some 1) (fresh_adapter (VDevice Scenario.unclosable)) =
    (Normal tt,
     set_trace (trace (fresh_adapter (VDevice Scenario.unclosable))
                ++ [Host (DeviceClose 10); Invoke 1 (Some (LibUSBError (-99)))])
               (fresh_adapter (VDevice Scenario.unclosable))).
Proof.
  apply (close_failure_reaches_callback
           (fresh_adapter (VDevice Scenario.unclosable)) Scenario.unclosable 1);
    reflexivity.
Defined.

Lemma detach_after_close_witness :
  usb_detach Sample.read_only (snd (close (Some 1) Run.read_only))
  = (Normal tt, snd (close (Some 1) Run.read_only)).
Proof.
  apply (detach_after_close_is_ignored Run.read_only Sample.read_only Sample.read_only);
    reflexivity.
Defined.

Lemma close_twice_witness :
  host_calls (trace (snd ((close (Some 1) ;; close (Some 2)) Run.read_only)))
  = [UsbOn "detach"; DeviceClose 7; UsbRemoveAllListeners "detach";
     DeviceClose 7; UsbRemoveAllListeners "detach"].
Proof.
  destruct (close_twice_releases_twice Run.read_only Sample.read_only 1 2
              eq_refl eq_refl) as (H & _).
  exact H.
Defined.

Lemma write_after_detach_witness :
  fst (write (DString "x") None (snd (usb_detach Sample.free_then_busy Run.bound)))
  = Normal tt.
Proof.
  destruct (write_after_detach_still_submits
              Run.bound Sample.free_then_busy Sample.ep_out (DString "x") None
              eq_refl ltac:(discriminate) eq_refl) as (_ & _ & _ & H & _).
  exact H.
Defined.

(** * How often, and to whom, one open reports *)

Section Reports.

Variable platform : string.

Lemma closure_state_is_result (t : Task) (s : State) :
  closure_state platform t s = snd (iface_callback platform t s).
Proof. now rewrite iface_callback_exact. Qed.

(** A run in which no closure both claims its interface and finds an
    "out" endpoint leaves the write slot unbound and emits nothing; the
    callback is passed what [unbound_calls] lists. *)
Lemma run_state_unbound (d : Device) (k : nat) (cb : option nat)
    (tasks : list Task) (s : State) :
  device s = VDevice d -> endpoint s = None ->
  Forall (fun t => task_counter t = k /\ task_callback t = cb) tasks ->
  Forall (fun j => completes platform j && has_out j = false) (map task_iface tasks) ->
  let s' := run_state platform tasks s in
  endpoint s' = None /\ device s' = VDevice d /\
  events (trace s') = events (trace s) /\
  callback_calls (trace s')
  = callback_calls (trace s)
    ++ unbound_calls platform (length (interfaces d)) cb
         (default 0 (counters s !! k)) (map task_iface tasks).
Proof.
  intros Hd He Hall Hno. cbv zeta. revert s Hd He Hno.
  induction Hall as [|t tasks (Hk & Hcb) _ IH]; intros s Hd He Hno.
  - cbn. now rewrite app_nil_r.
  - cbn [map] in Hno. apply List.Forall_cons_iff in Hno as [Ht Hrest].
    rewrite run_state_cons. cbn [map unbound_calls].
    rewrite closure_state_is_result.
    destruct (claim_error platform (task_iface t)) as [e|] eqn:Hc.
    + destruct (iface_callback_fails platform t s e Hc) as (tr & -> & Hcalls & Hev).
      cbn [snd].
      destruct (IH (set_trace (trace s ++ tr) s) Hd He Hrest) as (He' & Hd' & Hev' & Hcs).
      split_and!; try assumption.
      * rewrite Hev'. cbn [trace set_trace]. now rewrite events_app, Hev, app_nil_r.
      * rewrite Hcs. cbn [trace set_trace counters].
        now rewrite callback_calls_app, Hcalls, Hcb, <- app_assoc.
    + pose proof (iface_callback_completes platform t s Hc) as (tr & H).
      cbv zeta in H. unfold completes in Ht. rewrite Hc in Ht. cbn in Ht.
      rewrite He, Ht in H. cbn [is_set orb] in H. destruct H as (-> & Hcalls & Hev).
      cbn [snd].
      match goal with |- context [run_state platform tasks ?st] =>
        destruct (IH st) as (He' & Hd' & Hev' & Hcs) end.
      { exact Hd. }
      { cbn [endpoint set_trace set_counters set_deviceToPcEndpoint set_endpoint].
        apply is_set_false. now rewrite is_set_bind_first_out, Ht. }
      { exact Hrest. }
      split_and!; try assumption.
      * rewrite Hev'. cbn [trace set_trace set_counters]. now rewrite events_app, Hev, app_nil_r.
      * cbn [trace counters set_trace set_counters] in Hcs.
        unfold counter_of in *. rewrite Hk in *. rewrite lookup_insert_eq in Hcs.
        cbn [default from_option] in Hcs.
        change (id (S (default 0 (counters s !! k))))
          with (S (default 0 (counters s !! k))) in Hcs.
        rewrite Hcs, callback_calls_app, Hcalls, Hd, Hcb. unfold not_found_calls.
        now rewrite <- app_assoc.
Qed.

(** With the write slot bound, each closure whose interface is claimed
    emits one "connect". *)
Lemma run_state_bound_events (tasks : list Task) (s : State) :
  is_set (endpoint s) = true ->
  events (trace (run_state platform tasks s))
  = events (trace s)
    ++ map (fun _ => ("connect", ArgValue (device s)))
           (List.filter (completes platform) (map task_iface tasks)).
Proof.
  revert s. induction tasks as [|t tasks IH]; intros s Hb.
  - cbn. now rewrite app_nil_r.
  - rewrite run_state_cons.
    destruct (closure_state_bound platform t s Hb) as (_ & _ & He).
    rewrite IH by now rewrite He.
    rewrite closure_state_device. cbn [map List.filter]. unfold completes at 2.
    rewrite closure_state_is_result.
    destruct (claim_error platform (task_iface t)) as [e|] eqn:Hc; cbn [is_set negb].
    + destruct (iface_callback_fails platform t s e Hc) as (tr & -> & _ & Hev).
      cbn. now rewrite events_app, Hev, app_nil_r.
    + destruct (iface_callback_completes platform t s Hc) as (tr & H). cbv zeta in H.
      rewrite Hb in H. cbn [orb] in H. destruct H as (-> & _ & Hev).
      cbn. now rewrite events_app, Hev, <- app_assoc.
Qed.

Lemma bound_calls_by_interface (cb : option nat) (tasks : list Task) :
  Forall (fun t => task_callback t = cb) tasks ->
  flat_map (bound_calls platform) tasks
  = flat_map (fun j => calls cb (claim_error platform j)) (map task_iface tasks).
Proof.
  induction 1 as [|t tasks Ht _ IH]; [reflexivity|].
  cbn. unfold bound_calls at 1. now rewrite Ht, IH.
Qed.

End Reports.

(** C2. Started with the write slot unbound, the closures of one [open],
    in whatever order they run: the interfaces handled before the first
    one that is claimed and has an "out" endpoint emit nothing and call
    back with their claim error only; that interface emits "connect" and
    calls back with [null]; and every interface handled after it emits
    "connect" once more and calls back with [null] once more when it is
    claimed, and calls back with its claim error when it is not. *)
Theorem connect_emitted_per_claimed_interface
    (platform : string) (cb : option nat) (s s1 : State) (tasks sched : list Task)
    (before after : list Interface) (i : Interface) :
  endpoint s = None ->
  open cb s = (Normal tasks, s1) ->
  Permutation sched tasks ->
  map task_iface sched = before ++ i :: after ->
  Forall (fun j => completes platform j && has_out j = false) before ->
  completes platform i = true -> has_out i = true ->
  exists s2,
    run_callbacks platform sched s1 = (Normal tt, s2) /\
    connects (trace s2)
    = connects (trace s) + 1 + length (List.filter (completes platform) after) /\
    events (trace s2)
    = events (trace s)
      ++ map (fun _ => ("connect", ArgValue (device s)))
             (i :: List.filter (completes platform) after) /\
    callback_calls (trace s2)
    = callback_calls (trace s)
      ++ flat_map (fun j => match claim_error platform j with
                            | Some e => calls cb (Some e)
                            | None => []
                            end) before
      ++ calls cb None
      ++ flat_map (fun j => calls cb (claim_error platform j)) after.
Proof.
  intros He Ho Hp Hs Hb Hc Hout.
  destruct (open_returns cb s s1 tasks Ho)
    as (d & k & Hd & _ & Ht & Hd1 & He1 & Hk & Hev & Hcalls).
  assert (Forall (fun t => task_counter t = k /\ task_callback t = cb) tasks) as Hall.
  { subst tasks. apply List.Forall_forall. intros t Hin.
    apply in_map_iff in Hin as (j & <- & _). now split. }
  assert (Hall' := Permutation_Forall (Permutation_sym Hp) Hall).
  assert (length sched = length (interfaces d)) as Hlen.
  { rewrite (Permutation_length Hp), Ht. apply length_map. }
  exists (run_state platform sched s1).
  split; [apply run_callbacks_exact|].
  assert (events (trace (run_state platform sched s1))
          = events (trace s)
            ++ map (fun _ => ("connect", ArgValue (device s)))
                   (i :: List.filter (completes platform) after) /\
          callback_calls (trace (run_state platform sched s1))
          = callback_calls (trace s)
            ++ flat_map (fun j => match claim_error platform j with
                                  | Some e => calls cb (Some e)
                                  | None => []
                                  end) before
            ++ calls cb None
            ++ flat_map (fun j => calls cb (claim_error platform j)) after)
    as [Hevents Hcb].
  { pose proof Hs as Hsplit.
    apply map_eq_app in Hsplit as (sb & rest & -> & Hsb & Hrest).
    apply map_eq_cons in Hrest as (t & sa & -> & Hti & Hsa).
    subst before i after.
    apply Forall_app in Hall' as [Hallb Hallr].
    apply List.Forall_cons_iff in Hallr as [(Htk & Htcb) Halla].
    rewrite length_app in Hlen. cbn [length] in Hlen.
    destruct (run_state_unbound platform d k cb sb s1)
      as (HeA & HdA & HevA & HcbA); [congruence|congruence|exact Hallb|exact Hb|].
    rewrite Hk in HcbA. cbn [default from_option] in HcbA. change (id 0) with 0 in HcbA.
    rewrite unbound_calls_short in HcbA.
    2:{ pose proof (List.filter_length_le (completes platform) (map task_iface sb)) as Hle.
        rewrite length_map in Hle. lia. }
    rewrite run_state_app, run_state_cons.
    set (sA := run_state platform sb s1) in *.
    assert (claim_error platform (task_iface t) = None) as Hce.
    { unfold completes in Hc. now destruct (claim_error platform (task_iface t)). }
    pose proof (iface_callback_completes platform t sA Hce) as (tr & H).
    cbv zeta in H. rewrite HeA, Hout in H. cbn [is_set orb] in H.
    destruct H as (HsB & HcbB & HevB).
    rewrite iface_callback_exact in HsB. injection HsB as HsB.
    assert (is_set (endpoint (closure_state platform t sA)) = true) as Hbound.
    { rewrite closure_state_endpoint, Hc, is_set_bind_first_out, Hout.
      apply Bool.orb_true_r. }
    destruct (run_state_bound platform sa _ Hbound) as (HcbC & _ & _).
    pose proof (run_state_bound_events platform sa _ Hbound) as HevC.
    rewrite closure_state_device, HdA in HevC.
    rewrite HevC, HcbC, HsB. cbn [trace set_trace].
    rewrite events_app, callback_calls_app, HevA, HcbA, HevB, HcbB, Hev, Hcalls, HdA.
    rewrite Htcb, (bound_calls_by_interface platform cb sa).
    2:{ eapply List.Forall_impl; [|exact Halla]. intros x [_ Hx]. exact Hx. }
    rewrite <- Hd.
    split; [now rewrite <- app_assoc | now rewrite <- !app_assoc]. }
  split; [|split; [exact Hevents|exact Hcb]].
  unfold connects. rewrite Hevents, List.filter_app, length_app.
  assert (forall l : list Interface,
            length (List.filter (fun e : string * EventArg => String.eqb (fst e) "connect")
                      (map (fun _ => ("connect", ArgValue (device s))) l))
            = length l) as Hcount.
  { induction l as [|x l IH]; [reflexivity|]. cbn. now rewrite IH. }
  rewrite Hcount. cbn [length]. lia.
Qed.

(** Two interfaces that can be claimed, the first with an "out" endpoint:
    one "connect" and one [null] for interface 0, one of each for
    interface 1. *)
Lemma connect_emitted_per_claimed_interface_witness :
  exists s2,
    run_callbacks "linux" (Run.scheduled (Some 0) Run.two_free)
                  (Run.after (open (Some 0)) Run.two_free) = (Normal tt, s2) /\
    connects (trace s2) = connects (trace Run.two_free) + 1 + 1 /\
    events (trace s2)
    = events (trace Run.two_free)
      ++ [("connect", ArgValue (VDevice Sample.two_free));
          ("connect", ArgValue (VDevice Sample.two_free))] /\
    callback_calls (trace s2)
    = callback_calls (trace Run.two_free) ++ [(0, None); (0, None)].
Proof.
  apply (connect_emitted_per_claimed_interface
           "linux" (Some 0) Run.two_free (Run.after (open (Some 0)) Run.two_free)
           (Run.scheduled (Some 0) Run.two_free)
           (Run.scheduled (Some 0) Run.two_free)
           [] [Sample.iface_free 1 [Sample.ep_in]]
           (Sample.iface_free 0 [Sample.ep_out; Sample.ep_in])).
  - reflexivity.
  - reflexivity.
  - apply Permutation_refl.
  - reflexivity.
  - constructor.
  - reflexivity.
  - reflexivity.
Defined.
